(** * The 2.13 inch e-Paper driver (micropython_epaper_display.py)

    A shallow embedding of the [EPaperDisplay] class: the four control
    lines and the SPI bus are an explicit hardware state with a log of
    everything the driver did to them, every method is a function from
    that state to an outcome, and the two things the driver cannot decide
    itself (whether an SPI write fails, what the busy line reads) are
    supplied by a [world]. *)

From Stdlib Require Import ZArith List String Bool Arith Lia.
Import ListNotations.
Open Scope Z_scope.

(** ** Module constants *)

Definition DISPLAY_WIDTH : Z := 122.
Definition DISPLAY_HEIGHT : Z := 250.

(** ** Hardware: lines, bus, log *)

(** The three output lines of the driver ([self.rst], [self.dc],
    [self.cs]); the busy line is an input and has no constructor here. *)
Inductive line : Type := RST | DC | CS.

(** What the driver does to the outside world, in program order.
    [SpiWrite cs dc data] is one [self.spi.write] that went through, with
    the levels the chip-select and data/command lines had while the bytes
    were clocked out. *)
Inductive event : Type :=
| PinWrite (l : line) (v : Z)
| BusyRead (v : Z)
| SpiWrite (cs_level dc_level : Z) (data : list Z)
| SleepUs (n : Z)
| SleepMs (n : Z)
| Print (msg : string).

(** The object's attributes that the methods read or write, the log, and
    two counters that index the answers of the [world]. *)
Record EPaperDisplay : Type := mkDisplay {
  rst : Z;
  dc : Z;
  cs : Z;
  width : Z;
  height : Z;
  trace : list event;
  spi_calls : nat;
  busy_reads : nat
}.

(** The environment: the [n]-th call of [spi.write] raises when
    [spi_fails n]; the [n]-th read of the busy pin sees [busy_line n]
    ([true] is level 1, busy). *)
Record world : Type := mkWorld {
  spi_fails : nat -> bool;
  busy_line : nat -> bool
}.

(** Exceptions the methods can raise: the transport's own error out of
    [spi.write], and the [ValueError] of [bytes(...)] on an element outside
    0..255. The source raises nothing else. *)
Inductive exn : Type := TransportError | ValueError.

(** A call returns, raises (the effects done so far stay), or does not
    come back within the fuel given to its polling loops. *)
Inductive outcome : Type :=
| Ok (d : EPaperDisplay)
| Raise (e : exn) (d : EPaperDisplay)
| OutOfFuel.

Definition action : Type := EPaperDisplay -> outcome.

Definition seq (a b : action) : action :=
  fun d => match a d with
           | Ok d' => b d'
           | Raise e d' => Raise e d'
           | OutOfFuel => OutOfFuel
           end.

Declare Scope action_scope.
Delimit Scope action_scope with action.
Notation "a ;; b" := (seq a b) (at level 61, right associativity) : action_scope.
Open Scope action_scope.

Definition emit (e : event) (d : EPaperDisplay) : EPaperDisplay :=
  mkDisplay (rst d) (dc d) (cs d) (width d) (height d)
            (trace d ++ [e]) (spi_calls d) (busy_reads d).

Definition set_line (l : line) (v : Z) (d : EPaperDisplay) : EPaperDisplay :=
  match l with
  | RST => mkDisplay v (dc d) (cs d) (width d) (height d) (trace d) (spi_calls d) (busy_reads d)
  | DC => mkDisplay (rst d) v (cs d) (width d) (height d) (trace d) (spi_calls d) (busy_reads d)
  | CS => mkDisplay (rst d) (dc d) v (width d) (height d) (trace d) (spi_calls d) (busy_reads d)
  end.

Definition count_spi_call (d : EPaperDisplay) : EPaperDisplay :=
  mkDisplay (rst d) (dc d) (cs d) (width d) (height d)
            (trace d) (S (spi_calls d)) (busy_reads d).

Definition count_busy_read (d : EPaperDisplay) : EPaperDisplay :=
  mkDisplay (rst d) (dc d) (cs d) (width d) (height d)
            (trace d) (spi_calls d) (S (busy_reads d)).

(** [pin.value(v)] on an output line. *)
Definition pin_value (l : line) (v : Z) : action :=
  fun d => Ok (emit (PinWrite l v) (set_line l v d)).

Definition sleep_us (n : Z) : action := fun d => Ok (emit (SleepUs n) d).
Definition sleep_ms (n : Z) : action := fun d => Ok (emit (SleepMs n) d).
Definition print (msg : string) : action := fun d => Ok (emit (Print msg) d).
Definition raise (e : exn) : action := fun d => Raise e d.

Definition is_byte (b : Z) : bool := (0 <=? b) && (b <=? 255).

(** [bytes(l)] on a list of integers: the list itself when every element
    is in 0..255, [ValueError] otherwise. *)
Definition bytes (l : list Z) : option (list Z) :=
  if forallb is_byte l then Some l else None.

(** The value of a keyword argument with a default. *)
Definition arg_or (default : Z) (a : option Z) : Z :=
  match a with Some v => v | None => default end.

Section Driver.

Variable W : world.

(** [self.spi.write(data)]. *)
Definition spi_write (data : list Z) : action :=
  fun d =>
    if spi_fails W (spi_calls d)
    then Raise TransportError (count_spi_call d)
    else Ok (emit (SpiWrite (cs d) (dc d) data) (count_spi_call d)).

(** [self.spi.write(bytes(l))]: the argument is built first. *)
Definition spi_write_bytes (l : list Z) : action :=
  match bytes l with
  | Some data => spi_write data
  | None => raise ValueError
  end.

(** [self.busy.value()]: the level read, 0 or 1, and the state after. *)
Definition busy_value (d : EPaperDisplay) : Z * EPaperDisplay :=
  let v := Z.b2z (busy_line W (busy_reads d)) in
  (v, emit (BusyRead v) (count_busy_read d)).

Definition send_command (command : Z) : action :=
  pin_value DC 0 ;;
  pin_value CS 0 ;;
  spi_write_bytes [command] ;;
  pin_value CS 1.

Definition send_data (data : Z) : action :=
  pin_value DC 1 ;;
  pin_value CS 0 ;;
  spi_write_bytes [data] ;;
  pin_value CS 1.

Definition send_bytes (data : list Z) : action :=
  pin_value DC 1 ;;
  pin_value CS 0 ;;
  spi_write_bytes data ;;
  pin_value CS 1.

(** [while self.busy.value() == 1: time.sleep_ms(10)]. *)
Fixpoint wait_loop (fuel : nat) : action :=
  fun d =>
    match fuel with
    | O => OutOfFuel
    | S fuel' =>
        let (v, d1) := busy_value d in
        if v =? 1 then (sleep_ms 10 ;; wait_loop fuel') d1 else Ok d1
    end.

Definition wait_until_idle (fuel : nat) : action :=
  print "e-Paper: waiting for display to be ready..." ;;
  wait_loop fuel ;;
  print "e-Paper: display ready".

Definition power_off : action :=
  pin_value RST 0 ;;
  pin_value DC 0 ;;
  pin_value CS 0 ;;
  print "close 5V, Module enters 0 power consumption ...".

Definition hw_reset (fuel : nat) : action :=
  pin_value RST 1 ;;
  sleep_us 200 ;;
  pin_value RST 0 ;;
  sleep_us 200 ;;
  pin_value RST 1 ;;
  sleep_us 200 ;;
  wait_until_idle fuel.

Definition sw_reset (fuel : nat) : action :=
  send_command 0x12 ;;
  sleep_ms 10 ;;
  wait_until_idle fuel.

Definition set_display_size_and_driver_output : action :=
  send_command 0x01 ;;
  send_data 0xf9 ;;
  send_data 0x00 ;;
  send_data 0x00.

Definition set_ram_data_entry_mode (mode : option Z) : action :=
  send_command 0x11 ;;
  send_data (arg_or 0x03 mode).

Definition display_update : action :=
  send_command 0x22 ;;
  send_data 0xF7.

Definition turn_on_display (fuel : nat) : action :=
  display_update ;;
  send_command 0x20 ;;
  wait_until_idle fuel.

Definition set_window (x_start y_start x_end y_end : Z) : action :=
  send_command 0x44 ;;
  send_data (Z.land (Z.shiftr x_start 3) 0xFF) ;;
  send_data (Z.land (Z.shiftr x_end 3) 0xFF) ;;
  send_command 0x45 ;;
  send_data (Z.land y_start 0xFF) ;;
  send_data (Z.land (Z.shiftr y_start 8) 0xFF) ;;
  send_data (Z.land y_end 0xFF) ;;
  send_data (Z.land (Z.shiftr y_end 8) 0xFF).

Definition set_cursor (x y : Z) : action :=
  send_command 0x4E ;;
  send_data (Z.land x 0xFF) ;;
  send_command 0x4F ;;
  send_data (Z.land y 0xFF) ;;
  send_data (Z.land (Z.shiftr y 8) 0xFF).

Definition set_border (value : option Z) : action :=
  send_command 0x3C ;;
  send_data (arg_or 0xC0 value).

Definition init (fuel : nat) : action :=
  fun d =>
    (hw_reset fuel ;;
     sw_reset fuel ;;
     set_display_size_and_driver_output ;;
     set_ram_data_entry_mode None ;;
     (fun d' => set_window 0 0 (width d' - 1) (height d' - 1) d') ;;
     set_border None ;;
     wait_until_idle fuel) d.

Definition display (fuel : nat) (image : list Z) : action :=
  set_cursor 0 0 ;;
  send_command 0x24 ;;
  send_bytes image ;;
  turn_on_display fuel.

(** [linewidth] of [clear]: [int(self.width / 8)] truncates the float
    quotient, which is exact at these magnitudes, so it is [Z.quot]. *)
Definition linewidth (w : Z) : Z :=
  if w mod 8 =? 0 then Z.quot w 8 else Z.quot w 8 + 1.

Definition clear_buffer (color : Z) (d : EPaperDisplay) : list Z :=
  repeat color (Z.to_nat (height d * linewidth (width d))).

Definition clear (fuel : nat) (color : option Z) : action :=
  fun d => display fuel (clear_buffer (arg_or 0xFF color) d) d.

Definition deep_sleep : action :=
  send_command 0x10 ;;
  send_data 0x01.

End Driver.

(** ** The constructor *)

(** [EPaperDisplay()]: the geometry is set from the module constants, the
    log is empty. The constructor does not drive the output lines; they
    are taken at 0 here. *)
Definition new_display : EPaperDisplay :=
  mkDisplay 0 0 0 DISPLAY_WIDTH DISPLAY_HEIGHT [] 0 0.

(** ** Reading the log *)

(** What the panel receives: a write with the data/command line at 0 is a
    command, at any other level it is data; the panel listens only while
    chip-select is 0. *)
Inductive frame : Type :=
| Cmd (data : list Z)
| Dat (data : list Z).

Definition frame_of (e : event) : list frame :=
  match e with
  | SpiWrite csl dcl data =>
      if csl =? 0 then [if dcl =? 0 then Cmd data else Dat data] else []
  | _ => []
  end.

Definition bus_frames (tr : list event) : list frame := flat_map frame_of tr.

(** The data bytes that follow a command, up to the next command. *)
Fixpoint params (fs : list frame) : list Z :=
  match fs with
  | Dat bs :: rest => bs ++ params rest
  | _ => []
  end.

(** The frames grouped by command: each one-byte command with its
    parameter bytes. *)
Fixpoint commands (fs : list frame) : list (Z * list Z) :=
  match fs with
  | [] => []
  | Cmd [op] :: rest => (op, params rest) :: commands rest
  | _ :: rest => commands rest
  end.

(** The parameter lists of every occurrence of opcode [op]. *)
Definition params_of (op : Z) (cs : list (Z * list Z)) : list (list Z) :=
  map snd (filter (fun c => fst c =? op) cs).

(** ** Worlds *)

Definition transport_ok (W : world) : Prop :=
  forall n, spi_fails W n = false.

Definition eventually_idle (W : world) : Prop :=
  forall k, exists n, busy_line W (k + n)%nat = false.

(** The first idle reading from the [k]-th read on is the [n]-th. *)
Definition first_idle (W : world) (k n : nat) : Prop :=
  busy_line W (k + n)%nat = false /\
  forall i, (i < n)%nat -> busy_line W (k + i)%nat = true.

(** A transport that never fails and a panel that is never busy. *)
Definition calm : world := mkWorld (fun _ => false) (fun _ => false).

(** The panel is busy for the first [n] reads. *)
Definition busy_for (n : nat) : world :=
  mkWorld (fun _ => false) (fun k => (k <? n)%nat).

(** The [n]-th write fails. *)
Definition failing_at (n : nat) : world :=
  mkWorld (fun k => (k =? n)%nat) (fun _ => false).

(** The busy line is stuck at 1. *)
Definition stuck : world := mkWorld (fun _ => false) (fun _ => true).

(** ** States reached by the methods when nothing goes wrong *)

(** After one framed write: DC set to [v], chip-select low, the bytes,
    chip-select high. *)
Definition framed (v : Z) (data : list Z) (d : EPaperDisplay) : EPaperDisplay :=
  mkDisplay (rst d) v 1 (width d) (height d)
            (trace d ++ [PinWrite DC v; PinWrite CS 0; SpiWrite 0 v data; PinWrite CS 1])
            (S (spi_calls d)) (busy_reads d).

(** [n] busy polls, 10 ms apart. *)
Fixpoint poll_trace (n : nat) : list event :=
  match n with
  | O => []
  | S n' => BusyRead 1 :: SleepMs 10 :: poll_trace n'
  end.

(** After [wait_loop] saw [n] busy reads and then an idle one. *)
Definition polled (n : nat) (d : EPaperDisplay) : EPaperDisplay :=
  mkDisplay (rst d) (dc d) (cs d) (width d) (height d)
            (trace d ++ poll_trace n ++ [BusyRead 0])
            (spi_calls d) (busy_reads d + n + 1).

Definition waited (n : nat) (d : EPaperDisplay) : EPaperDisplay :=
  emit (Print "e-Paper: display ready")
       (polled n (emit (Print "e-Paper: waiting for display to be ready...") d)).

(** After the eight writes of [set_window]. *)
Definition set_window_done (x_start y_start x_end y_end : Z) (d : EPaperDisplay)
  : EPaperDisplay :=
  framed 1 [Z.land (Z.shiftr y_end 8) 0xFF]
    (framed 1 [Z.land y_end 0xFF]
       (framed 1 [Z.land (Z.shiftr y_start 8) 0xFF]
          (framed 1 [Z.land y_start 0xFF]
             (framed 0 [0x45]
                (framed 1 [Z.land (Z.shiftr x_end 3) 0xFF]
                   (framed 1 [Z.land (Z.shiftr x_start 3) 0xFF]
                      (framed 0 [0x44] d))))))).

Definition set_cursor_done (x y : Z) (d : EPaperDisplay) : EPaperDisplay :=
  framed 1 [Z.land (Z.shiftr y 8) 0xFF]
    (framed 1 [Z.land y 0xFF]
       (framed 0 [0x4F]
          (framed 1 [Z.land x 0xFF]
             (framed 0 [0x4E] d)))).

Definition refresh_sent (d : EPaperDisplay) : EPaperDisplay :=
  framed 0 [0x20] (framed 1 [0xF7] (framed 0 [0x22] d)).

Definition display_sent (image : list Z) (d : EPaperDisplay) : EPaperDisplay :=
  refresh_sent (framed 1 image (framed 0 [0x24] (set_cursor_done 0 0 d))).

Definition hw_reset_pulsed (d : EPaperDisplay) : EPaperDisplay :=
  mkDisplay 1 (dc d) (cs d) (width d) (height d)
            (trace d ++ [PinWrite RST 1; SleepUs 200; PinWrite RST 0; SleepUs 200;
                         PinWrite RST 1; SleepUs 200])
            (spi_calls d) (busy_reads d).

Definition deep_sleep_done (d : EPaperDisplay) : EPaperDisplay :=
  framed 1 [0x01] (framed 0 [0x10] d).

(** The state [init] returns: the three waits saw [n1], [n2] and [n3]
    busy readings. *)
Definition init_done (n1 n2 n3 : nat) (d : EPaperDisplay) : EPaperDisplay :=
  waited n3
    (framed 1 [0xC0]
       (framed 0 [0x3C]
          (set_window_done 0 0 (width d - 1) (height d - 1)
             (framed 1 [0x03]
                (framed 0 [0x11]
                   (framed 1 [0x00]
                      (framed 1 [0x00]
                         (framed 1 [0xf9]
                            (framed 0 [0x01]
                               (waited n2
                                  (emit (SleepMs 10)
                                     (framed 0 [0x12]
                                        (waited n1 (hw_reset_pulsed d)))))))))))))).

(** ** What a call can do on any transport *)

(** The state a call ends in, when it ends. *)
Definition final (o : outcome) : option EPaperDisplay :=
  match o with
  | Ok d => Some d
  | Raise _ d => Some d
  | OutOfFuel => None
  end.

(** A sequence of framed sends: it always ends, it only adds to the log,
    it returns with chip-select at 1, and when it raises it is the
    transport's error, with chip-select still at 0. *)
Definition bus_action (a : action) : Prop :=
  forall d, exists t,
    match a d with
    | Ok d' => trace d' = trace d ++ t /\ cs d' = 1
    | Raise e d' => e = TransportError /\ trace d' = trace d ++ t /\ cs d' = 0
    | OutOfFuel => False
    end.

(** A call whose first effects on the log are [p], however it ends. *)
Definition opens (a : action) (p : list event) : Prop :=
  forall d, exists d' t, final (a d) = Some d' /\ trace d' = trace d ++ p ++ t.

(** ** Calls on the object *)

(** The operations of the panel controller, as calls on the object. *)
Inductive method : Type :=
| HwReset
| SwReset
| Init
| SetWindow (x_start y_start x_end y_end : Z)
| SetCursor (x y : Z)
| Display (image : list Z)
| TurnOnDisplay
| Clear (color : option Z)
| DeepSleep
| SetBorder (value : option Z).

Definition call (W : world) (fuel : nat) (m : method) : action :=
  match m with
  | HwReset => hw_reset W fuel
  | SwReset => sw_reset W fuel
  | Init => init W fuel
  | SetWindow x0 y0 x1 y1 => set_window W x0 y0 x1 y1
  | SetCursor x y => set_cursor W x y
  | Display image => display W fuel image
  | TurnOnDisplay => turn_on_display W fuel
  | Clear color => clear W fuel color
  | DeepSleep => deep_sleep W
  | SetBorder value => set_border W value
  end.

(** The calls one after the other, on the same object. *)
Fixpoint call_all (W : world) (fuel : nat) (ms : list method) : action :=
  match ms with
  | [] => fun d => Ok d
  | m :: rest => call W fuel m ;; call_all W fuel rest
  end.

(** The arguments that go to [bytes(...)] are byte values. *)
Definition args_are_bytes (m : method) : bool :=
  match m with
  | Display image => forallb is_byte image
  | Clear color => is_byte (arg_or 0xFF color)
  | SetBorder value => is_byte (arg_or 0xC0 value)
  | _ => true
  end.

(** ** Every method of the class *)

(** The methods the panel operations are built from are public as well:
    a caller can invoke any of them. *)
Inductive any_method : Type :=
| Public (m : method)
| PowerOff
| SetDisplaySizeAndDriverOutput
| SetRamDataEntryMode (mode : option Z)
| SendCommand (command : Z)
| SendData (data : Z)
| SendBytes (data : list Z)
| WaitUntilIdle
| DisplayUpdate.

Definition invoke (W : world) (fuel : nat) (m : any_method) : action :=
  match m with
  | Public m' => call W fuel m'
  | PowerOff => power_off
  | SetDisplaySizeAndDriverOutput => set_display_size_and_driver_output W
  | SetRamDataEntryMode mode => set_ram_data_entry_mode W mode
  | SendCommand command => send_command W command
  | SendData data => send_data W data
  | SendBytes data => send_bytes W data
  | WaitUntilIdle => wait_until_idle W fuel
  | DisplayUpdate => display_update W
  end.

Fixpoint invoke_all (W : world) (fuel : nat) (ms : list any_method) : action :=
  match ms with
  | [] => fun d => Ok d
  | m :: rest => invoke W fuel m ;; invoke_all W fuel rest
  end.

(** Every argument that reaches [bytes(...)] is a byte value. *)
Definition byte_args (m : any_method) : bool :=
  match m with
  | Public m' => args_are_bytes m'
  | SetRamDataEntryMode mode => is_byte (arg_or 0x03 mode)
  | SendCommand command => is_byte command
  | SendData data => is_byte data
  | SendBytes data => forallb is_byte data
  | _ => true
  end.

(** The methods that call [wait_until_idle], directly or not. *)
Definition polls_busy (m : any_method) : bool :=
  match m with
  | Public HwReset | Public SwReset | Public Init | Public (Display _)
  | Public TurnOnDisplay | Public (Clear _) | WaitUntilIdle => true
  | _ => false
  end.

(** ** What the log may contain *)

(** The bus discipline, event by event: lines are driven to 0 or 1 only;
    a write happens with chip-select at 0 and data/command at 0 or 1; a
    write with data/command at 0 carries one byte; every element written
    is a byte value. *)
Definition event_ok (e : event) : Prop :=
  match e with
  | PinWrite _ v => v = 0 \/ v = 1
  | BusyRead v => v = 0 \/ v = 1
  | SpiWrite csl dcl data =>
      csl = 0 /\ (dcl = 0 \/ dcl = 1) /\
      (dcl = 0 -> List.length data = 1%nat) /\
      Forall (fun b => 0 <= b <= 255) data
  | _ => True
  end.

(** [d'] is [d] some calls later: same geometry, counters not lower, the
    log longer by well-formed events. *)
Definition grown (d d' : EPaperDisplay) : Prop :=
  width d' = width d /\ height d' = height d /\
  (spi_calls d <= spi_calls d')%nat /\ (busy_reads d <= busy_reads d')%nat /\
  exists t, trace d' = trace d ++ t /\ Forall event_ok t.

(** What holds of every method in every world: however the call ends the
    state has only grown; an exception leaves chip-select at 0; and the
    transport's error comes from a write that failed during the call. *)
Definition sound (W : world) (a : action) : Prop :=
  forall d,
    match a d with
    | Ok d' => grown d d'
    | Raise e d' =>
        grown d d' /\ cs d' = 0 /\
        (e = TransportError ->
         exists k, spi_calls d' = S k /\ (spi_calls d <= k)%nat /\ spi_fails W k = true)
    | OutOfFuel => True
    end.

(** A call that cannot raise [ValueError]. *)
Definition byte_safe (a : action) : Prop :=
  forall d d', a d <> Raise ValueError d'.

(** A call that always ends and never reads the busy line. *)
Definition never_polls (a : action) : Prop :=
  forall d, exists d', final (a d) = Some d' /\ busy_reads d' = busy_reads d.

(** ** The upload handler's use of the driver (with_wifi_example.py) *)


(** ** connect_wifi (with_wifi_example.py) *)

(** The network interface as the function sees it: the answer of the
    [n]-th call of [wlan.isconnected()], and the tuple [wlan.ifconfig()]
    returns. *)
Record wlan_world : Type := mkWlan {
  isconnected_at : nat -> bool;
  ifconfig : string * string * string * string
}.

Inductive wifi_event : Type :=
| WlanActive (on : bool)
| WlanConnect (ssid password : string)
| WifiPrint (msg : string)
| WifiPrintConfig (label : string) (config : string * string * string * string)
| WifiSleep (seconds : Z).

(** The log of what the function did and the number of
    [wlan.isconnected()] calls made so far. *)
Record wifi : Type := mkWifi {
  wifi_log : list wifi_event;
  isconnected_calls : nat
}.

Definition wifi_do (e : wifi_event) (s : wifi) : wifi :=
  mkWifi (wifi_log s ++ [e]) (isconnected_calls s).

Definition isconnected (N : wlan_world) (s : wifi) : bool * wifi :=
  (isconnected_at N (isconnected_calls s),
   mkWifi (wifi_log s) (S (isconnected_calls s))).

(** [while max_wait > 0: if wlan.isconnected(): break; max_wait -= 1;
    print(...); time.sleep(1)]. *)
Fixpoint connect_wait (N : wlan_world) (max_wait : nat) (s : wifi) : wifi :=
  match max_wait with
  | O => s
  | S max_wait' =>
      let (connected, s1) := isconnected N s in
      if connected then s1
      else connect_wait N max_wait'
             (wifi_do (WifiSleep 1) (wifi_do (WifiPrint "Waiting for connection...") s1))
  end.

Definition connect_wifi (N : wlan_world) (ssid password : string) : bool * wifi :=
  let s0 := wifi_do (WlanActive true) (mkWifi [] 0) in
  let (connected, s1) := isconnected N s0 in
  let s2 :=
    if negb connected then
      connect_wait N 10
        (wifi_do (WlanConnect ssid password)
           (wifi_do (WifiPrint ("Connecting to WiFi network: " ++ ssid ++ "...")) s1))
    else s1 in
  let (connected', s3) := isconnected N s2 in
  if connected' then
    (true,
     wifi_do (WifiPrintConfig "Network config:" (ifconfig N))
       (wifi_do (WifiPrint "WiFi connected successfully") s3))
  else
    (false, wifi_do (WifiPrint "WiFi connection failed") s3).

(** Seconds slept, and calls of [wlan.connect], in a log. *)
Fixpoint seconds_slept (log : list wifi_event) : Z :=
  match log with
  | [] => 0
  | WifiSleep n :: rest => n + seconds_slept rest
  | _ :: rest => seconds_slept rest
  end.

Fixpoint connect_calls (log : list wifi_event) : nat :=
  match log with
  | [] => O
  | WlanConnect _ _ :: rest => S (connect_calls rest)
  | _ :: rest => connect_calls rest
  end.

(** A link that comes up at the [k]-th call of [isconnected] and stays. *)
Definition link_up_from (k : nat) : wlan_world :=
  mkWlan (fun n => (k <=? n)%nat)
         ("192.168.1.7", "255.255.255.0", "192.168.1.1", "8.8.8.8")%string.

(** A link that never comes up. *)
Definition link_down : wlan_world :=
  mkWlan (fun _ => false) ("0.0.0.0", "0.0.0.0", "0.0.0.0", "0.0.0.0")%string.

(** ** Bit packing in processImage (the page served by with_wifi_example.py) *)

Definition EPAPER_WIDTH : Z := 122.
Definition EPAPER_HEIGHT : Z := 250.

(** [Math.ceil(a / b)] for positive integers: the quotient is exact in a
    double at these magnitudes. *)
Definition math_ceil_quotient (a b : Z) : Z :=
  if Z.rem a b =? 0 then a / b else a / b + 1.

(** [const linewidth = Math.ceil(EPAPER_WIDTH / 8)]. *)
Definition binary_linewidth : Z := math_ceil_quotient EPAPER_WIDTH 8.

(** [a[i]] on a typed array: the element, or [undefined] outside it. *)
Definition typed_get (a : list Z) (i : Z) : option Z :=
  if (0 <=? i) && (i <? Z.of_nat (List.length a))
  then nth_error a (Z.to_nat i) else None.

Fixpoint update (n : nat) (v : Z) (l : list Z) : list Z :=
  match l, n with
  | [], _ => []
  | _ :: rest, O => v :: rest
  | x :: rest, S n' => x :: update n' v rest
  end.

(** [a[i] = v] on a [Uint8Array]: the value is stored modulo 256; a store
    outside the array does nothing. *)
Definition typed_set (a : list Z) (i : Z) (v : Z) : list Z :=
  if (0 <=? i) && (i <? Z.of_nat (List.length a))
  then update (Z.to_nat i) (v mod 256) a else a.

(** An operand of [|]: [undefined] counts as 0. *)
Definition to_int (v : option Z) : Z :=
  match v with Some n => n | None => 0 end.

(** [finalData[i] > 128]; a comparison with [undefined] is false. *)
Definition is_black (finalData : list Z) (y x : Z) : bool :=
  match typed_get finalData ((y * EPAPER_WIDTH + x) * 4) with
  | Some v => v >? 128
  | None => false
  end.

(** The body of the inner loop. *)
Definition pack_pixel (finalData binaryData : list Z) (y x : Z) : list Z :=
  let byteIndex := y * binary_linewidth + x / 8 in
  let bitPosition := 7 - Z.rem x 8 in
  if is_black finalData y x
  then typed_set binaryData byteIndex
         (Z.lor (to_int (typed_get binaryData byteIndex)) (Z.shiftl 1 bitPosition))
  else binaryData.

(** The values of [for (let k = 0; k < n; k++)]. *)
Definition range (n : Z) : list Z := map Z.of_nat (List.seq 0 (Z.to_nat n)).

Definition pack_row (finalData binaryData : list Z) (y : Z) : list Z :=
  fold_left (fun b x => pack_pixel finalData b y x) (range EPAPER_WIDTH) binaryData.

(** [new Uint8Array(linewidth * EPAPER_HEIGHT)] and the two loops over
    it. *)
Definition pack_image (finalData : list Z) : list Z :=
  fold_left (fun b y => pack_row finalData b y) (range EPAPER_HEIGHT)
            (repeat 0 (Z.to_nat (binary_linewidth * EPAPER_HEIGHT))).

(** The pixels in the order the loops visit them, and the loop body
    folded over a list of pixels. *)
Definition pixels : list (Z * Z) :=
  flat_map (fun y => map (pair y) (range EPAPER_WIDTH)) (range EPAPER_HEIGHT).

Definition pack_pixels (finalData : list Z) (ps : list (Z * Z)) (b : list Z) : list Z :=
  fold_left (fun b p => pack_pixel finalData b (fst p) (snd p)) ps b.

(** The bit of pixel (x, y) in a packed buffer. *)
Definition packed_bit (data : list Z) (y x : Z) : bool :=
  Z.testbit (nth (Z.to_nat (y * 16 + x / 8)) data 0) (7 - x mod 8).

(** * Lemmas *)

Lemma seq_Ok (a b : action) d d' : a d = Ok d' -> (a ;; b) d = b d'.
Proof. unfold seq; intros ->; reflexivity. Qed.

Lemma is_byte_iff b : is_byte b = true <-> 0 <= b <= 255.
Proof. unfold is_byte; rewrite andb_true_iff, !Z.leb_le; tauto. Qed.

Lemma land_255_range x : 0 <= Z.land x 255 <= 255.
Proof.
  assert (E : Z.land x 255 = x mod 256) by (apply (Z.land_ones x 8); lia).
  rewrite E; pose proof (Z.mod_pos_bound x 256 ltac:(lia)); lia.
Qed.

Lemma land_255_byte x : is_byte (Z.land x 255) = true.
Proof. apply is_byte_iff, land_255_range. Qed.

Lemma bytes_one b : is_byte b = true -> bytes [b] = Some [b].
Proof. unfold bytes; simpl; intros ->; reflexivity. Qed.

Lemma bytes_Forall l : Forall (fun b => 0 <= b <= 255) l -> bytes l = Some l.
Proof.
  intros H; unfold bytes.
  replace (forallb is_byte l) with true; [reflexivity|].
  symmetry; apply forallb_forall; intros x Hx.
  apply is_byte_iff; rewrite Forall_forall in H; auto.
Qed.

Lemma bus_frames_app t1 t2 : bus_frames (t1 ++ t2) = bus_frames t1 ++ bus_frames t2.
Proof. unfold bus_frames; apply flat_map_app. Qed.

Lemma bus_frames_poll_trace n : bus_frames (poll_trace n) = [].
Proof. induction n; simpl; auto. Qed.

Section DriverFacts.

Variable W : world.

Lemma send_framed v data d :
  spi_fails W (spi_calls d) = false ->
  (pin_value DC v ;; pin_value CS 0 ;; spi_write W data ;; pin_value CS 1) d
  = Ok (framed v data d).
Proof.
  intros H; unfold seq, pin_value, spi_write; simpl; rewrite H; simpl.
  unfold framed, emit; simpl; rewrite <- !app_assoc; reflexivity.
Qed.

Lemma send_command_ok c d :
  spi_fails W (spi_calls d) = false -> is_byte c = true ->
  send_command W c d = Ok (framed 0 [c] d).
Proof.
  intros H Hb; unfold send_command, spi_write_bytes.
  rewrite (bytes_one _ Hb); apply send_framed; exact H.
Qed.

Lemma send_data_ok b d :
  spi_fails W (spi_calls d) = false -> is_byte b = true ->
  send_data W b d = Ok (framed 1 [b] d).
Proof.
  intros H Hb; unfold send_data, spi_write_bytes.
  rewrite (bytes_one _ Hb); apply send_framed; exact H.
Qed.

Lemma send_bytes_ok data d :
  spi_fails W (spi_calls d) = false -> Forall (fun b => 0 <= b <= 255) data ->
  send_bytes W data d = Ok (framed 1 data d).
Proof.
  intros H Hb; unfold send_bytes, spi_write_bytes.
  rewrite (bytes_Forall _ Hb); apply send_framed; exact H.
Qed.

End DriverFacts.

(** ** The polling loop *)

Section Polling.

Variable W : world.

Lemma first_idle_shift k n :
  busy_line W k = true -> first_idle W (S k) n -> first_idle W k (S n).
Proof.
  intros Hk [Hidle Hbusy]; split.
  - rewrite Nat.add_succ_r; exact Hidle.
  - intros [|i] Hi.
    + rewrite Nat.add_0_r; exact Hk.
    + rewrite Nat.add_succ_r; apply Hbusy; lia.
Qed.

Lemma polled_step n d :
  polled n (emit (SleepMs 10) (emit (BusyRead 1) (count_busy_read d)))
  = polled (S n) d.
Proof.
  unfold polled, emit, count_busy_read; simpl.
  rewrite <- !app_assoc; simpl; f_equal; lia.
Qed.

(** Every run of the loop is one of two: it saw the first idle reading
    within its fuel and returned there, or every reading within its fuel
    was busy and it is still polling. *)
Lemma wait_loop_cases fuel : forall d,
  (exists n, (n < fuel)%nat /\ first_idle W (busy_reads d) n /\
             wait_loop W fuel d = Ok (polled n d))
  \/ ((forall i, (i < fuel)%nat -> busy_line W (busy_reads d + i)%nat = true) /\
      wait_loop W fuel d = OutOfFuel).
Proof.
  induction fuel as [|fuel IH]; intros d.
  - right; split; [intros i Hi; lia | reflexivity].
  - simpl; destruct (busy_line W (busy_reads d)) eqn:E; simpl.
    + unfold seq, sleep_ms.
      destruct (IH (emit (SleepMs 10) (emit (BusyRead 1) (count_busy_read d))))
        as [(n & Hn & Hfirst & Hrun) | (Hbusy & Hrun)]; simpl in *.
      * left; exists (S n); split; [lia|]; split.
        -- apply first_idle_shift; assumption.
        -- rewrite Hrun, polled_step; reflexivity.
      * right; split; [|exact Hrun].
        intros [|i] Hi.
        -- rewrite Nat.add_0_r; exact E.
        -- rewrite Nat.add_succ_r; apply Hbusy; lia.
    + left; exists O; split; [lia|]; split.
      * split; [rewrite Nat.add_0_r; exact E | intros i Hi; lia].
      * unfold polled, emit, count_busy_read; simpl.
        f_equal; f_equal; lia.
Qed.

Lemma first_idle_unique k n m : first_idle W k n -> first_idle W k m -> n = m.
Proof.
  intros [Hn Bn] [Hm Bm].
  destruct (Nat.lt_trichotomy n m) as [H | [H | H]]; [|assumption|].
  - specialize (Bm n H); congruence.
  - specialize (Bn m H); congruence.
Qed.

Lemma wait_loop_ok n d fuel :
  first_idle W (busy_reads d) n -> (n < fuel)%nat ->
  wait_loop W fuel d = Ok (polled n d).
Proof.
  intros Hfirst Hfuel.
  destruct (wait_loop_cases fuel d) as [(m & _ & Hm & Hrun) | (Hbusy & _)].
  - rewrite (first_idle_unique _ _ _ Hfirst Hm); exact Hrun.
  - destruct Hfirst as [Hidle _]; specialize (Hbusy n Hfuel); congruence.
Qed.

Lemma first_idle_exists k n :
  busy_line W (k + n)%nat = false -> exists m, first_idle W k m.
Proof.
  intros Hidle.
  destruct (wait_loop_cases (S n) (mkDisplay 0 0 0 0 0 [] 0 k))
    as [(m & _ & Hm & _) | (Hbusy & _)]; simpl in *.
  - exists m; exact Hm.
  - specialize (Hbusy n ltac:(lia)); congruence.
Qed.

Lemma wait_until_idle_ok n d fuel :
  first_idle W (busy_reads d) n -> (n < fuel)%nat ->
  wait_until_idle W fuel d = Ok (waited n d).
Proof.
  intros Hfirst Hfuel; unfold wait_until_idle, seq, print at 1.
  rewrite (wait_loop_ok n) by assumption; reflexivity.
Qed.

(** With a busy line that idles again and again, a wait from any state
    returns, and more fuel changes nothing. *)
Lemma wait_until_idle_returns d :
  eventually_idle W ->
  exists n, forall fuel, (n < fuel)%nat -> wait_until_idle W fuel d = Ok (waited n d).
Proof.
  intros HW; destruct (HW (busy_reads d)) as [n0 Hn0].
  destruct (first_idle_exists _ _ Hn0) as [n Hn].
  exists n; intros fuel Hf; apply wait_until_idle_ok; assumption.
Qed.

End Polling.

Lemma wait_until_idle_cases W fuel d :
  (exists n, (n < fuel)%nat /\ first_idle W (busy_reads d) n /\
             wait_until_idle W fuel d = Ok (waited n d))
  \/ ((forall i, (i < fuel)%nat -> busy_line W (busy_reads d + i)%nat = true) /\
      wait_until_idle W fuel d = OutOfFuel).
Proof.
  pose (d0 := emit (Print "e-Paper: waiting for display to be ready...") d).
  destruct (wait_loop_cases W fuel d0) as [(n & Hn & Hfirst & Hrun) | (Hbusy & Hrun)].
  - left; exists n; split; [exact Hn|]; split; [exact Hfirst|].
    apply wait_until_idle_ok; assumption.
  - right; split; [exact Hbusy|].
    unfold wait_until_idle, seq, print at 1; fold d0; rewrite Hrun; reflexivity.
Qed.

Lemma trace_waited n d :
  trace (waited n d)
  = trace d ++ [Print "e-Paper: waiting for display to be ready..."]
            ++ poll_trace n
            ++ [BusyRead 0; Print "e-Paper: display ready"].
Proof. simpl; rewrite <- !app_assoc; reflexivity. Qed.

Example wait_three_polls :
  wait_until_idle (busy_for 3) 4 new_display
  = Ok (mkDisplay 0 0 0 122 250
          [Print "e-Paper: waiting for display to be ready...";
           BusyRead 1; SleepMs 10; BusyRead 1; SleepMs 10; BusyRead 1; SleepMs 10;
           BusyRead 0; Print "e-Paper: display ready"] 0 4).
Proof. reflexivity. Qed.

Example wait_stuck_100 : wait_until_idle stuck 100 new_display = OutOfFuel.
Proof. reflexivity. Qed.

(** C9. [wait_until_idle] polls the busy line every 10 ms and returns at
    the first poll that reads idle: with the first idle reading [n] polls
    ahead it performs [n] busy reads, each followed by a 10 ms sleep, and
    one idle read. It has no bound of its own: it returns (for enough
    fuel) exactly when some later reading of the busy line is idle, it
    never raises, and on a line stuck at 1 it never returns whatever the
    fuel. *)
Theorem wait_until_idle_polls_until_idle (W : world) (d : EPaperDisplay) :
  (forall n fuel,
      first_idle W (busy_reads d) n -> (n < fuel)%nat ->
      exists d',
        wait_until_idle W fuel d = Ok d' /\
        trace d' = trace d ++ [Print "e-Paper: waiting for display to be ready..."]
                           ++ poll_trace n
                           ++ [BusyRead 0; Print "e-Paper: display ready"] /\
        busy_reads d' = (busy_reads d + n + 1)%nat)
  /\ (forall fuel d',
         wait_until_idle W fuel d = Ok d' ->
         exists n, (n < fuel)%nat /\ first_idle W (busy_reads d) n /\ d' = waited n d)
  /\ ((exists fuel d', wait_until_idle W fuel d = Ok d')
      <-> (exists n, busy_line W (busy_reads d + n)%nat = false))
  /\ ((forall n, busy_line W (busy_reads d + n)%nat = true) ->
      forall fuel, wait_until_idle W fuel d = OutOfFuel)
  /\ (forall fuel e d', wait_until_idle W fuel d <> Raise e d').
Proof.
  split; [|split; [|split; [|split]]].
  - intros n fuel Hfirst Hfuel; exists (waited n d); split; [|split].
    + apply wait_until_idle_ok; assumption.
    + apply trace_waited.
    + reflexivity.
  - intros fuel d' Hrun.
    destruct (wait_until_idle_cases W fuel d) as [(n & Hn & Hfirst & Hok) | (_ & Hout)].
    + exists n; split; [exact Hn|]; split; [exact Hfirst | congruence].
    + congruence.
  - split.
    + intros (fuel & d' & Hrun).
      destruct (wait_until_idle_cases W fuel d) as [(n & _ & [Hidle _] & _) | (_ & Hout)].
      * exists n; exact Hidle.
      * congruence.
    + intros (n0 & Hn0).
      destruct (first_idle_exists W _ _ Hn0) as [n Hn].
      exists (S n), (waited n d); apply wait_until_idle_ok; [exact Hn | lia].
  - intros Hstuck fuel.
    destruct (wait_until_idle_cases W fuel d) as [(n & _ & [Hidle _] & _) | (_ & Hout)].
    + rewrite Hstuck in Hidle; discriminate.
    + exact Hout.
  - intros fuel e d' Hrun.
    destruct (wait_until_idle_cases W fuel d) as [(n & _ & _ & Hok) | (_ & Hout)];
      congruence.
Qed.

(** ** The methods on a transport that does not fail *)

Ltac byte_ok := first [reflexivity | apply land_255_byte | assumption].

(** Runs the first send of a sequence (or the only one) on a healthy
    transport [HW]. *)
Ltac send_step HW :=
  first
    [ erewrite seq_Ok; [| apply send_command_ok; [apply HW | byte_ok]]
    | erewrite seq_Ok; [| apply send_data_ok; [apply HW | byte_ok]]
    | erewrite seq_Ok; [| apply send_bytes_ok; [apply HW | assumption]]
    | erewrite seq_Ok; [| reflexivity]
    | apply send_command_ok; [apply HW | byte_ok]
    | apply send_data_ok; [apply HW | byte_ok]
    | apply send_bytes_ok; [apply HW | assumption] ].

Section HealthyTransport.

Variable W : world.
Hypothesis HW : transport_ok W.

Lemma set_window_ok x0 y0 x1 y1 d :
  set_window W x0 y0 x1 y1 d = Ok (set_window_done x0 y0 x1 y1 d).
Proof. unfold set_window, set_window_done; repeat send_step HW. Qed.

Lemma set_cursor_ok x y d : set_cursor W x y d = Ok (set_cursor_done x y d).
Proof. unfold set_cursor, set_cursor_done; repeat send_step HW. Qed.

Lemma deep_sleep_ok d : deep_sleep W d = Ok (deep_sleep_done d).
Proof. unfold deep_sleep, deep_sleep_done; repeat send_step HW. Qed.

Lemma set_border_ok v d :
  is_byte (arg_or 0xC0 v) = true ->
  set_border W v d = Ok (framed 1 [arg_or 0xC0 v] (framed 0 [0x3C] d)).
Proof. intros Hv; unfold set_border; repeat send_step HW. Qed.

Lemma set_ram_data_entry_mode_ok m d :
  is_byte (arg_or 0x03 m) = true ->
  set_ram_data_entry_mode W m d = Ok (framed 1 [arg_or 0x03 m] (framed 0 [0x11] d)).
Proof. intros Hv; unfold set_ram_data_entry_mode; repeat send_step HW. Qed.

Lemma set_display_size_and_driver_output_ok d :
  set_display_size_and_driver_output W d
  = Ok (framed 1 [0x00] (framed 1 [0x00] (framed 1 [0xf9] (framed 0 [0x01] d)))).
Proof. unfold set_display_size_and_driver_output; repeat send_step HW. Qed.

Lemma hw_reset_ok n d fuel :
  first_idle W (busy_reads d) n -> (n < fuel)%nat ->
  hw_reset W fuel d = Ok (waited n (hw_reset_pulsed d)).
Proof.
  intros Hfirst Hfuel; unfold hw_reset.
  assert (E : (pin_value RST 1 ;; sleep_us 200 ;; pin_value RST 0 ;; sleep_us 200 ;;
               pin_value RST 1 ;; sleep_us 200 ;; wait_until_idle W fuel) d
              = wait_until_idle W fuel (hw_reset_pulsed d)).
  { unfold seq, pin_value, sleep_us; simpl.
    unfold hw_reset_pulsed, emit; simpl; rewrite <- !app_assoc; reflexivity. }
  rewrite E; apply wait_until_idle_ok; assumption.
Qed.

Lemma sw_reset_ok n d fuel :
  first_idle W (busy_reads d) n -> (n < fuel)%nat ->
  sw_reset W fuel d = Ok (waited n (emit (SleepMs 10) (framed 0 [0x12] d))).
Proof.
  intros Hfirst Hfuel; unfold sw_reset.
  send_step HW. unfold seq, sleep_ms. apply wait_until_idle_ok; assumption.
Qed.

Lemma turn_on_display_ok n d fuel :
  first_idle W (busy_reads d) n -> (n < fuel)%nat ->
  turn_on_display W fuel d = Ok (waited n (refresh_sent d)).
Proof.
  intros Hfirst Hfuel; unfold turn_on_display, display_update.
  rewrite (seq_Ok _ _ d (framed 1 [0xF7] (framed 0 [0x22] d)))
    by (repeat send_step HW).
  send_step HW. apply wait_until_idle_ok; assumption.
Qed.

Lemma display_ok n image d fuel :
  Forall (fun b => 0 <= b <= 255) image ->
  first_idle W (busy_reads d) n -> (n < fuel)%nat ->
  display W fuel image d = Ok (waited n (display_sent image d)).
Proof.
  intros Himg Hfirst Hfuel; unfold display.
  rewrite (seq_Ok _ _ _ _ (set_cursor_ok 0 0 d)).
  repeat send_step HW.
  apply turn_on_display_ok; assumption.
Qed.

End HealthyTransport.

(** ** What the panel received *)

Lemma frames_framed v data d :
  bus_frames (trace (framed v data d))
  = bus_frames (trace d) ++ [if v =? 0 then Cmd data else Dat data].
Proof. simpl; rewrite bus_frames_app; reflexivity. Qed.

Lemma frames_waited n d : bus_frames (trace (waited n d)) = bus_frames (trace d).
Proof.
  rewrite trace_waited, !bus_frames_app, bus_frames_poll_trace; simpl.
  rewrite app_nil_r; reflexivity.
Qed.

Lemma frames_sleep_ms k d :
  bus_frames (trace (emit (SleepMs k) d)) = bus_frames (trace d).
Proof. simpl; rewrite bus_frames_app; simpl; apply app_nil_r. Qed.

Lemma frames_hw_reset_pulsed d :
  bus_frames (trace (hw_reset_pulsed d)) = bus_frames (trace d).
Proof. simpl; rewrite bus_frames_app; simpl; apply app_nil_r. Qed.

Create Rewrite HintDb frames.
#[export] Hint Rewrite frames_framed frames_waited frames_sleep_ms
  frames_hw_reset_pulsed : frames.

(** Collects the frames a method appended to the log. *)
Ltac frames :=
  unfold display_sent, refresh_sent, set_cursor_done, set_window_done,
    deep_sleep_done;
  autorewrite with frames; simpl; rewrite <- ?app_assoc; simpl.

Lemma idle_ahead W d :
  eventually_idle W -> exists n, first_idle W (busy_reads d) n.
Proof.
  intros HI; destruct (HI (busy_reads d)) as [n Hn].
  exact (first_idle_exists W _ _ Hn).
Qed.

Lemma init_returns W d :
  transport_ok W -> eventually_idle W ->
  exists n1 n2 n3, forall fuel,
    (n1 < fuel)%nat -> (n2 < fuel)%nat -> (n3 < fuel)%nat ->
    init W fuel d = Ok (init_done n1 n2 n3 d).
Proof.
  intros HW HI.
  destruct (idle_ahead W (hw_reset_pulsed d) HI) as [n1 H1].
  pose (d1 := waited n1 (hw_reset_pulsed d)).
  destruct (idle_ahead W d1 HI) as [n2 H2].
  pose (d2 := waited n2 (emit (SleepMs 10) (framed 0 [0x12] d1))).
  pose (d3 := framed 1 [0xC0]
                (framed 0 [0x3C]
                   (set_window_done 0 0 (width d - 1) (height d - 1)
                      (framed 1 [0x03]
                         (framed 0 [0x11]
                            (framed 1 [0x00]
                               (framed 1 [0x00]
                                  (framed 1 [0xf9] (framed 0 [0x01] d2))))))))).
  destruct (idle_ahead W d3 HI) as [n3 H3].
  exists n1, n2, n3; intros fuel F1 F2 F3; unfold init.
  rewrite (seq_Ok _ _ _ _ (hw_reset_ok W n1 d fuel H1 F1)).
  rewrite (seq_Ok _ _ _ _ (sw_reset_ok W HW n2 d1 fuel H2 F2)).
  rewrite (seq_Ok _ _ _ _ (set_display_size_and_driver_output_ok W HW _)).
  rewrite (seq_Ok _ _ _ _ (set_ram_data_entry_mode_ok W HW None _ eq_refl)).
  erewrite seq_Ok by (apply set_window_ok; exact HW).
  rewrite (seq_Ok _ _ _ _ (set_border_ok W HW None _ eq_refl)).
  apply (wait_until_idle_ok W n3 d3 fuel H3 F3).
Qed.

Example init_calm_commands :
  exists d', init calm 1 new_display = Ok d' /\
    commands (bus_frames (trace d'))
    = [(0x12, []); (0x01, [0xF9; 0x00; 0x00]); (0x11, [0x03]);
       (0x44, [0x00; 0x0F]); (0x45, [0x00; 0x00; 0xF9; 0x00]); (0x3C, [0xC0])].
Proof. eexists; split; [vm_compute; reflexivity | vm_compute; reflexivity]. Qed.

Lemma calm_transport_ok : transport_ok calm.
Proof. intros n; reflexivity. Qed.

Lemma calm_eventually_idle : eventually_idle calm.
Proof. intros k; exists O; reflexivity. Qed.

Lemma busy_for_transport_ok n : transport_ok (busy_for n).
Proof. intros k; reflexivity. Qed.

Lemma busy_for_eventually_idle n : eventually_idle (busy_for n).
Proof.
  intros k; exists n; simpl.
  apply Nat.ltb_ge; lia.
Qed.

(** * The claims *)

(** C7. [init] is the Reset-to-Ready transition: on a transport that does
    not fail and a busy line that idles again, it returns, and the frames
    it sent are the software reset, driver output control 0x01 with the
    three data bytes 0xF9, 0x00, 0x00, data entry mode 0x11 with the one
    byte 0x03, the window and the border. Opcode 0x01 occurs once, with
    exactly those three bytes, and opcode 0x11 once, with exactly 0x03. *)
Theorem init_sends_driver_output_and_entry_mode_once (W : world) (d : EPaperDisplay) :
  transport_ok W -> eventually_idle W ->
  exists fuel0, forall fuel, (fuel0 <= fuel)%nat ->
    exists d' sent,
      init W fuel d = Ok d' /\
      bus_frames (trace d') = bus_frames (trace d) ++ sent /\
      sent = [Cmd [0x12];
              Cmd [0x01]; Dat [0xF9]; Dat [0x00]; Dat [0x00];
              Cmd [0x11]; Dat [0x03];
              Cmd [0x44]; Dat [Z.land (Z.shiftr 0 3) 0xFF];
                          Dat [Z.land (Z.shiftr (width d - 1) 3) 0xFF];
              Cmd [0x45]; Dat [Z.land 0 0xFF]; Dat [Z.land (Z.shiftr 0 8) 0xFF];
                          Dat [Z.land (height d - 1) 0xFF];
                          Dat [Z.land (Z.shiftr (height d - 1) 8) 0xFF];
              Cmd [0x3C]; Dat [0xC0]] /\
      params_of 0x01 (commands sent) = [[0xF9; 0x00; 0x00]] /\
      params_of 0x11 (commands sent) = [[0x03]].
Proof.
  intros HW HI.
  destruct (init_returns W d HW HI) as (n1 & n2 & n3 & Hrun).
  exists (S (Nat.max n1 (Nat.max n2 n3))); intros fuel Hfuel.
  eexists; eexists; split; [apply Hrun; lia|].
  split; [|split; [reflexivity | split; reflexivity]].
  unfold init_done; frames; reflexivity.
Qed.

Lemma init_sends_driver_output_and_entry_mode_once_witness :
  transport_ok calm /\ eventually_idle calm /\
  exists fuel d',
    init calm fuel new_display = Ok d' /\
    params_of 0x01 (commands (bus_frames (trace d'))) = [[0xF9; 0x00; 0x00]] /\
    params_of 0x11 (commands (bus_frames (trace d'))) = [[0x03]].
Proof.
  split; [exact calm_transport_ok|]; split; [exact calm_eventually_idle|].
  destruct (init_sends_driver_output_and_entry_mode_once calm new_display
              calm_transport_ok calm_eventually_idle) as [fuel0 H].
  destruct (H fuel0 (le_n fuel0)) as (d' & sent & Hrun & Hfr & _ & H01 & H11).
  exists fuel0, d'; split; [exact Hrun|].
  simpl in Hfr; rewrite Hfr; split; assumption.
Defined.

(** ** Coordinates *)

Lemma land_255_mod x : Z.land x 255 = x mod 256.
Proof. apply (Z.land_ones x 8); lia. Qed.

Lemma shiftr_3_div x : Z.shiftr x 3 = x / 8.
Proof. apply (Z.shiftr_div_pow2 x 3); lia. Qed.

Lemma shiftr_8_div y : Z.shiftr y 8 = y / 256.
Proof. apply (Z.shiftr_div_pow2 y 8); lia. Qed.

Lemma x_byte_in_range x :
  0 <= x < 2048 -> Z.land (Z.shiftr x 3) 0xFF = x / 8.
Proof.
  intros Hx; rewrite land_255_mod, shiftr_3_div.
  apply Z.mod_small; split.
  - apply Z.div_pos; lia.
  - apply Z.div_lt_upper_bound; lia.
Qed.

Lemma y_pair_mod y :
  Z.land y 0xFF + 256 * Z.land (Z.shiftr y 8) 0xFF = y mod 65536.
Proof.
  rewrite !land_255_mod, shiftr_8_div.
  change 65536 with (256 * 256).
  rewrite Z.rem_mul_r by lia; lia.
Qed.

Lemma y_pair_in_range y :
  0 <= y < 65536 -> Z.land y 0xFF + 256 * Z.land (Z.shiftr y 8) 0xFF = y.
Proof. intros Hy; rewrite y_pair_mod; apply Z.mod_small; exact Hy. Qed.

Lemma frames_set_window_done x0 y0 x1 y1 d :
  bus_frames (trace (set_window_done x0 y0 x1 y1 d))
  = bus_frames (trace d)
    ++ [Cmd [0x44]; Dat [Z.land (Z.shiftr x0 3) 0xFF]; Dat [Z.land (Z.shiftr x1 3) 0xFF];
        Cmd [0x45]; Dat [Z.land y0 0xFF]; Dat [Z.land (Z.shiftr y0 8) 0xFF];
                    Dat [Z.land y1 0xFF]; Dat [Z.land (Z.shiftr y1 8) 0xFF]].
Proof. frames; reflexivity. Qed.

Lemma frames_set_cursor_done x y d :
  bus_frames (trace (set_cursor_done x y d))
  = bus_frames (trace d)
    ++ [Cmd [0x4E]; Dat [Z.land x 0xFF];
        Cmd [0x4F]; Dat [Z.land y 0xFF]; Dat [Z.land (Z.shiftr y 8) 0xFF]].
Proof. frames; reflexivity. Qed.

Example set_window_full_panel :
  exists d', set_window calm 0 0 121 249 new_display = Ok d' /\
    commands (bus_frames (trace d'))
    = [(0x44, [0x00; 0x0F]); (0x45, [0x00; 0x00; 0xF9; 0x00])].
Proof. eexists; split; [vm_compute; reflexivity | vm_compute; reflexivity]. Qed.

(** C5. [set_window] sends each X coordinate as the one byte
    [(x >> 3) & 0xFF] under opcode 0x44 and each Y coordinate as two bytes,
    low byte first, under opcode 0x45. For x inside the panel width the X
    byte is x / 8, and for y below 2^16 the two Y bytes give y back. The
    low three bits of x are dropped, so a window starting at x = 0 and one
    starting at x = 5 are the same call, and [set_window(0, 0, 121, 249)]
    sends X bytes 0x00, 0x0F and Y bytes 0x00, 0x00, 0xF9, 0x00. *)
Theorem set_window_encodes_coordinates (W : world) (d : EPaperDisplay) :
  transport_ok W ->
  (forall x0 y0 x1 y1,
      exists d',
        set_window W x0 y0 x1 y1 d = Ok d' /\
        bus_frames (trace d')
        = bus_frames (trace d)
          ++ [Cmd [0x44]; Dat [Z.land (Z.shiftr x0 3) 0xFF];
                          Dat [Z.land (Z.shiftr x1 3) 0xFF];
              Cmd [0x45]; Dat [Z.land y0 0xFF]; Dat [Z.land (Z.shiftr y0 8) 0xFF];
                          Dat [Z.land y1 0xFF]; Dat [Z.land (Z.shiftr y1 8) 0xFF]])
  /\ (forall x, 0 <= x < DISPLAY_WIDTH ->
                Z.land (Z.shiftr x 3) 0xFF = x / 8 /\ 0 <= x / 8 <= 15)
  /\ (forall y, 0 <= y < 65536 ->
                Z.land y 0xFF + 256 * Z.land (Z.shiftr y 8) 0xFF = y /\
                0 <= Z.land y 0xFF <= 255 /\ 0 <= Z.land (Z.shiftr y 8) 0xFF <= 255)
  /\ (forall y0 x1 y1, set_window W 0 y0 x1 y1 d = set_window W 5 y0 x1 y1 d)
  /\ (exists d' sent,
         set_window W 0 0 121 249 d = Ok d' /\
         bus_frames (trace d') = bus_frames (trace d) ++ sent /\
         sent = [Cmd [0x44]; Dat [0x00]; Dat [0x0F];
                   Cmd [0x45]; Dat [0x00]; Dat [0x00]; Dat [0xF9]; Dat [0x00]] /\
         params_of 0x44 (commands sent) = [[0x00; 0x0F]] /\
         params_of 0x45 (commands sent) = [[0x00; 0x00; 0xF9; 0x00]]).
Proof.
  intros HW; split; [|split; [|split; [|split]]].
  - intros x0 y0 x1 y1; exists (set_window_done x0 y0 x1 y1 d); split.
    + apply set_window_ok; exact HW.
    + apply frames_set_window_done.
  - intros x Hx; unfold DISPLAY_WIDTH in Hx; split.
    + apply x_byte_in_range; lia.
    + split; [apply Z.div_pos; lia|].
      assert (x / 8 < 16) by (apply Z.div_lt_upper_bound; lia); lia.
  - intros y Hy; split; [apply y_pair_in_range; exact Hy|].
    split; apply land_255_range.
  - intros y0 x1 y1; reflexivity.
  - exists (set_window_done 0 0 121 249 d); eexists; split; [|split; [|split; [reflexivity|]]].
    + apply set_window_ok; exact HW.
    + apply frames_set_window_done.
    + split; reflexivity.
Qed.

Lemma set_window_encodes_coordinates_witness :
  transport_ok calm /\
  exists d',
    set_window calm 0 0 121 249 new_display = Ok d' /\
    bus_frames (trace d')
    = [Cmd [0x44]; Dat [0x00]; Dat [0x0F];
       Cmd [0x45]; Dat [0x00]; Dat [0x00]; Dat [0xF9]; Dat [0x00]].
Proof.
  split; [exact calm_transport_ok|].
  destruct (set_window_encodes_coordinates calm new_display calm_transport_ok)
    as (_ & _ & _ & _ & d' & sent & Hrun & Hfr & Hsent & _).
  exists d'; split; [exact Hrun|].
  rewrite Hfr, Hsent; reflexivity.
Defined.

(** ** What a send can do on any transport *)

Lemma bus_action_seq a b : bus_action a -> bus_action b -> bus_action (a ;; b).
Proof.
  intros Ha Hb d; unfold seq.
  destruct (Ha d) as [t Ht]; destruct (a d) as [d1 | e d1 |]; [| exists t; exact Ht | contradiction].
  destruct Ht as [Ht _].
  destruct (Hb d1) as [t' Ht']; exists (t ++ t'); rewrite app_assoc, <- Ht.
  destruct (b d1) as [d2 | e d2 |]; exact Ht'.
Qed.

Lemma opens_seq a b p : opens a p -> bus_action a -> bus_action b -> opens (a ;; b) p.
Proof.
  intros Ha Ha' Hb d; unfold seq.
  destruct (Ha d) as (d1 & t & Hfin & Ht); specialize (Ha' d).
  destruct (a d) as [d0 | e d0 |]; simpl in Hfin; [| | discriminate].
  - injection Hfin as ->.
    destruct (Hb d1) as [t' Ht'].
    destruct (b d1) as [d2 | e d2 |]; [| | contradiction].
    + exists d2, (t ++ t'); split; [reflexivity|].
      destruct Ht' as [-> _]; rewrite Ht, <- !app_assoc; reflexivity.
    + exists d2, (t ++ t'); split; [reflexivity|].
      destruct Ht' as (_ & -> & _); rewrite Ht, <- !app_assoc; reflexivity.
  - injection Hfin as ->.
    exists d1, t; split; [reflexivity | exact Ht].
Qed.

Section AnyTransport.

Variable W : world.

(** A framed write of well-formed bytes has two exits: the write went
    through and chip-select is back at 1, or the write raised and the call
    ended there, after chip-select went to 0 and before it would have
    gone back to 1. *)
Lemma framed_write_exits v data d :
  (spi_fails W (spi_calls d) = false /\
   (pin_value DC v ;; pin_value CS 0 ;; spi_write W data ;; pin_value CS 1) d
   = Ok (framed v data d))
  \/ (spi_fails W (spi_calls d) = true /\
      (pin_value DC v ;; pin_value CS 0 ;; spi_write W data ;; pin_value CS 1) d
      = Raise TransportError
          (mkDisplay (rst d) v 0 (width d) (height d)
                     (trace d ++ [PinWrite DC v; PinWrite CS 0])
                     (S (spi_calls d)) (busy_reads d))).
Proof.
  destruct (spi_fails W (spi_calls d)) eqn:E.
  - right; split; [reflexivity|].
    unfold seq, pin_value, spi_write; simpl; rewrite E.
    unfold count_spi_call; simpl; rewrite <- !app_assoc; reflexivity.
  - left; split; [reflexivity | apply send_framed; exact E].
Qed.

Lemma framed_write_bus_action v data :
  bus_action (pin_value DC v ;; pin_value CS 0 ;; spi_write W data ;; pin_value CS 1).
Proof.
  intros d; destruct (framed_write_exits v data d) as [[_ ->] | [_ ->]].
  - eexists; split; reflexivity.
  - eexists; split; [reflexivity | split; reflexivity].
Qed.

Lemma framed_write_opens v data :
  opens (pin_value DC v ;; pin_value CS 0 ;; spi_write W data ;; pin_value CS 1)
        [PinWrite DC v; PinWrite CS 0].
Proof.
  intros d; destruct (framed_write_exits v data d) as [[_ ->] | [_ ->]].
  - eexists; exists [SpiWrite 0 v data; PinWrite CS 1]; split; reflexivity.
  - eexists; exists []; split; reflexivity.
Qed.

Lemma send_command_bus_action c : is_byte c = true -> bus_action (send_command W c).
Proof.
  intros Hc; unfold send_command, spi_write_bytes; rewrite (bytes_one _ Hc).
  apply framed_write_bus_action.
Qed.

Lemma send_data_bus_action b : is_byte b = true -> bus_action (send_data W b).
Proof.
  intros Hb; unfold send_data, spi_write_bytes; rewrite (bytes_one _ Hb).
  apply framed_write_bus_action.
Qed.

Lemma send_command_opens c :
  is_byte c = true -> opens (send_command W c) [PinWrite DC 0; PinWrite CS 0].
Proof.
  intros Hc; unfold send_command, spi_write_bytes; rewrite (bytes_one _ Hc).
  apply framed_write_opens.
Qed.

Lemma set_window_bus_action x0 y0 x1 y1 : bus_action (set_window W x0 y0 x1 y1).
Proof.
  unfold set_window.
  repeat (apply bus_action_seq;
          [first [apply send_command_bus_action | apply send_data_bus_action]; byte_ok|]).
  apply send_data_bus_action; byte_ok.
Qed.

Lemma set_cursor_bus_action x y : bus_action (set_cursor W x y).
Proof.
  unfold set_cursor.
  repeat (apply bus_action_seq;
          [first [apply send_command_bus_action | apply send_data_bus_action]; byte_ok|]).
  apply send_data_bus_action; byte_ok.
Qed.

End AnyTransport.

Lemma bus_action_raises_transport a d e d' :
  bus_action a -> a d = Raise e d' -> e = TransportError /\ cs d' = 0.
Proof.
  intros Ha Hrun; destruct (Ha d) as [t Ht]; rewrite Hrun in Ht.
  destruct Ht as (He & _ & Hcs); split; assumption.
Qed.

Example set_window_outside_panel :
  exists d', set_window calm (-1) (-1) 1000 70000 new_display = Ok d' /\
    commands (bus_frames (trace d'))
    = [(0x44, [255; 125]); (0x45, [255; 255; 112; 17])].
Proof. eexists; split; [vm_compute; reflexivity | vm_compute; reflexivity]. Qed.

Example set_cursor_outside_panel :
  exists d', set_cursor calm (-3) 65537 new_display = Ok d' /\
    commands (bus_frames (trace d')) = [(0x4E, [253]); (0x4F, [1; 0])].
Proof. eexists; split; [vm_compute; reflexivity | vm_compute; reflexivity]. Qed.

(** C10. [set_window] and [set_cursor] take any integers, negative or at
    and beyond the panel size: neither has a range check and neither can
    raise on account of a coordinate (the only exception either can raise
    is the transport's). On a transport that does not fail both return,
    and each coordinate is sent reduced to its field: [set_window] sends
    [(x >> 3) & 0xFF], that is (x / 8) mod 256, per X coordinate and
    y mod 2^16 as low byte, high byte per Y coordinate; [set_cursor] sends
    [x & 0xFF], that is x mod 256, and y mod 2^16 as low byte, high
    byte. *)
Theorem set_window_and_set_cursor_reduce_any_integer
  (W : world) (d : EPaperDisplay) (x0 y0 x1 y1 x y : Z) :
  (forall e d', set_window W x0 y0 x1 y1 d = Raise e d' -> e = TransportError)
  /\ (forall e d', set_cursor W x y d = Raise e d' -> e = TransportError)
  /\ (transport_ok W ->
      exists dw dcur,
        set_window W x0 y0 x1 y1 d = Ok dw /\
        bus_frames (trace dw)
        = bus_frames (trace d)
          ++ [Cmd [0x44]; Dat [Z.land (Z.shiftr x0 3) 0xFF];
                          Dat [Z.land (Z.shiftr x1 3) 0xFF];
              Cmd [0x45]; Dat [Z.land y0 0xFF]; Dat [Z.land (Z.shiftr y0 8) 0xFF];
                          Dat [Z.land y1 0xFF]; Dat [Z.land (Z.shiftr y1 8) 0xFF]] /\
        set_cursor W x y d = Ok dcur /\
        bus_frames (trace dcur)
        = bus_frames (trace d)
          ++ [Cmd [0x4E]; Dat [Z.land x 0xFF];
              Cmd [0x4F]; Dat [Z.land y 0xFF]; Dat [Z.land (Z.shiftr y 8) 0xFF]])
  /\ Z.land (Z.shiftr x0 3) 0xFF = (x0 / 8) mod 256
  /\ Z.land (Z.shiftr x1 3) 0xFF = (x1 / 8) mod 256
  /\ Z.land x 0xFF = x mod 256
  /\ Z.land y0 0xFF + 256 * Z.land (Z.shiftr y0 8) 0xFF = y0 mod 2 ^ 16
  /\ Z.land y1 0xFF + 256 * Z.land (Z.shiftr y1 8) 0xFF = y1 mod 2 ^ 16
  /\ Z.land y 0xFF + 256 * Z.land (Z.shiftr y 8) 0xFF = y mod 2 ^ 16
  /\ Forall (fun b => 0 <= b <= 255)
            [Z.land y0 0xFF; Z.land (Z.shiftr y0 8) 0xFF;
             Z.land y1 0xFF; Z.land (Z.shiftr y1 8) 0xFF;
             Z.land y 0xFF; Z.land (Z.shiftr y 8) 0xFF].
Proof.
  split; [|split; [|split; [|repeat split]]].
  - intros e d' Hrun.
    apply (bus_action_raises_transport _ _ _ _ (set_window_bus_action W x0 y0 x1 y1) Hrun).
  - intros e d' Hrun.
    apply (bus_action_raises_transport _ _ _ _ (set_cursor_bus_action W x y) Hrun).
  - intros HW.
    exists (set_window_done x0 y0 x1 y1 d), (set_cursor_done x y d).
    split; [apply set_window_ok; exact HW|].
    split; [apply frames_set_window_done|].
    split; [apply set_cursor_ok; exact HW | apply frames_set_cursor_done].
  - rewrite land_255_mod, shiftr_3_div; reflexivity.
  - rewrite land_255_mod, shiftr_3_div; reflexivity.
  - apply land_255_mod.
  - apply y_pair_mod.
  - apply y_pair_mod.
  - apply y_pair_mod.
  - repeat constructor; apply land_255_range.
Qed.

(** C4, as the code has it. [set_window] validates nothing: whatever the
    coordinates, in the panel or not, its first effects are on the
    hardware (data/command to 0, chip-select to 0, for opcode 0x44); it
    can raise only the transport's error; and on a transport that does not
    fail it returns having sent both commands with the coordinates as
    given, reduced to a byte each. *)
Theorem set_window_checks_no_range (W : world) (d : EPaperDisplay) (x0 y0 x1 y1 : Z) :
  (exists d' t,
      final (set_window W x0 y0 x1 y1 d) = Some d' /\
      trace d' = trace d ++ [PinWrite DC 0; PinWrite CS 0] ++ t)
  /\ (forall e d', set_window W x0 y0 x1 y1 d = Raise e d' -> e = TransportError)
  /\ (transport_ok W ->
      exists d',
        set_window W x0 y0 x1 y1 d = Ok d' /\
        commands (skipn (List.length (bus_frames (trace d))) (bus_frames (trace d')))
        = [(0x44, [Z.land (Z.shiftr x0 3) 0xFF; Z.land (Z.shiftr x1 3) 0xFF]);
           (0x45, [Z.land y0 0xFF; Z.land (Z.shiftr y0 8) 0xFF;
                   Z.land y1 0xFF; Z.land (Z.shiftr y1 8) 0xFF])]).
Proof.
  split; [|split].
  - assert (H : opens (set_window W x0 y0 x1 y1) [PinWrite DC 0; PinWrite CS 0]).
    { unfold set_window; apply opens_seq.
      - apply send_command_opens; reflexivity.
      - apply send_command_bus_action; reflexivity.
      - repeat (apply bus_action_seq;
                [first [apply send_command_bus_action | apply send_data_bus_action];
                 byte_ok|]).
        apply send_data_bus_action; byte_ok. }
    exact (H d).
  - intros e d' Hrun.
    apply (bus_action_raises_transport _ _ _ _ (set_window_bus_action W x0 y0 x1 y1) Hrun).
  - intros HW; exists (set_window_done x0 y0 x1 y1 d).
    split; [apply set_window_ok; exact HW|].
    rewrite frames_set_window_done, skipn_app, skipn_all, Nat.sub_diag.
    reflexivity.
Qed.

(** C4, the claim as written fails: a window with every coordinate
    outside the 122 x 250 panel is accepted and sent. *)
Lemma set_window_accepts_out_of_range :
  width new_display <= 200 /\ -1 < 0 /\ height new_display <= 300 /\
  height new_display <= 1000 /\
  exists d',
    set_window calm 200 300 (-1) 1000 new_display = Ok d' /\
    bus_frames (trace d')
    = [Cmd [0x44]; Dat [25]; Dat [255];
       Cmd [0x45]; Dat [44]; Dat [1]; Dat [232]; Dat [3]].
Proof.
  repeat (split; [vm_compute; congruence|]).
  eexists; split; [vm_compute; reflexivity | vm_compute; reflexivity].
Qed.

(** ** Chip-select around a write *)

Example send_command_released :
  send_command calm 0x12 new_display
  = Ok (mkDisplay 0 0 1 122 250
          [PinWrite DC 0; PinWrite CS 0; SpiWrite 0 0 [0x12]; PinWrite CS 1] 1 0).
Proof. reflexivity. Qed.

(** C3, the claim as written fails: when the transport write raises, each
    of the three primitives ends there, and the last level written to
    chip-select is 0. *)
Lemma send_leaves_select_asserted_on_transport_error :
  spi_fails (failing_at 0) (spi_calls new_display) = true /\
  send_command (failing_at 0) 0x12 new_display
  = Raise TransportError
      (mkDisplay 0 0 0 122 250 [PinWrite DC 0; PinWrite CS 0] 1 0) /\
  send_data (failing_at 0) 0xF7 new_display
  = Raise TransportError
      (mkDisplay 0 1 0 122 250 [PinWrite DC 1; PinWrite CS 0] 1 0) /\
  send_bytes (failing_at 0) [0xFF; 0x00] new_display
  = Raise TransportError
      (mkDisplay 0 1 0 122 250 [PinWrite DC 1; PinWrite CS 0] 1 0).
Proof. repeat split. Qed.

(** C3, as the code has it. Each primitive is straight-line code: it sets
    data/command, drives chip-select to 0, writes, and drives chip-select
    to 1. When the write returns, the primitive returns with chip-select
    at 1. When the write raises, the transport's error leaves the
    primitive at once and chip-select stays at 0: the release is the
    statement after the write and is not reached. *)
Theorem send_releases_select_only_after_write_returns
  (W : world) (d : EPaperDisplay) (command data : Z) (burst : list Z) :
  is_byte command = true -> is_byte data = true ->
  Forall (fun b => 0 <= b <= 255) burst ->
  (spi_fails W (spi_calls d) = false ->
   exists d1 d2 d3,
     send_command W command d = Ok d1 /\ cs d1 = 1 /\
     trace d1 = trace d ++ [PinWrite DC 0; PinWrite CS 0;
                            SpiWrite 0 0 [command]; PinWrite CS 1] /\
     send_data W data d = Ok d2 /\ cs d2 = 1 /\
     trace d2 = trace d ++ [PinWrite DC 1; PinWrite CS 0;
                            SpiWrite 0 1 [data]; PinWrite CS 1] /\
     send_bytes W burst d = Ok d3 /\ cs d3 = 1 /\
     trace d3 = trace d ++ [PinWrite DC 1; PinWrite CS 0;
                            SpiWrite 0 1 burst; PinWrite CS 1])
  /\ (spi_fails W (spi_calls d) = true ->
      exists d1 d2 d3,
        send_command W command d = Raise TransportError d1 /\ cs d1 = 0 /\
        trace d1 = trace d ++ [PinWrite DC 0; PinWrite CS 0] /\
        send_data W data d = Raise TransportError d2 /\ cs d2 = 0 /\
        trace d2 = trace d ++ [PinWrite DC 1; PinWrite CS 0] /\
        send_bytes W burst d = Raise TransportError d3 /\ cs d3 = 0 /\
        trace d3 = trace d ++ [PinWrite DC 1; PinWrite CS 0]).
Proof.
  intros Hc Hd Hb.
  unfold send_command, send_data, send_bytes, spi_write_bytes.
  rewrite (bytes_one _ Hc), (bytes_one _ Hd), (bytes_Forall _ Hb).
  split; intros E.
  - destruct (framed_write_exits W 0 [command] d) as [[_ ->] | [E' _]]; [|congruence].
    destruct (framed_write_exits W 1 [data] d) as [[_ ->] | [E' _]]; [|congruence].
    destruct (framed_write_exits W 1 burst d) as [[_ ->] | [E' _]]; [|congruence].
    do 3 eexists; repeat split.
  - destruct (framed_write_exits W 0 [command] d) as [[E' _] | [_ ->]]; [congruence|].
    destruct (framed_write_exits W 1 [data] d) as [[E' _] | [_ ->]]; [congruence|].
    destruct (framed_write_exits W 1 burst d) as [[E' _] | [_ ->]]; [congruence|].
    do 3 eexists; repeat split.
Qed.

Lemma send_releases_select_only_after_write_returns_witness :
  is_byte 0x12 = true /\ is_byte 0xF7 = true /\
  Forall (fun b => 0 <= b <= 255) [0xFF; 0x00] /\
  spi_fails (failing_at 1) (spi_calls new_display) = false /\
  exists d1,
    send_command (failing_at 1) 0x12 new_display = Ok d1 /\ cs d1 = 1 /\
    spi_fails (failing_at 1) (spi_calls d1) = true /\
    exists d2,
      send_data (failing_at 1) 0xF7 d1 = Raise TransportError d2 /\ cs d2 = 0.
Proof.
  assert (Hburst : Forall (fun b => 0 <= b <= 255) [0xFF; 0x00])
    by (repeat constructor; lia).
  split; [reflexivity|]; split; [reflexivity|]; split; [exact Hburst|].
  split; [reflexivity|].
  destruct (send_releases_select_only_after_write_returns
              (failing_at 1) new_display 0x12 0xF7 [0xFF; 0x00]
              eq_refl eq_refl Hburst) as [Hok _].
  destruct (Hok eq_refl) as (d1 & _ & _ & Hrun & Hcs & Htr & _).
  exists d1; split; [exact Hrun|]; split; [exact Hcs|].
  assert (Hcalls : spi_calls d1 = 1%nat)
    by (simpl in Hrun; injection Hrun as <-; reflexivity).
  split; [rewrite Hcalls; reflexivity|].
  destruct (send_releases_select_only_after_write_returns
              (failing_at 1) d1 0x12 0xF7 [0xFF; 0x00]
              eq_refl eq_refl Hburst) as [_ Hfail].
  destruct (Hfail ltac:(rewrite Hcalls; reflexivity))
    as (_ & d2 & _ & _ & _ & _ & Hrun2 & Hcs2 & _).
  exists d2; split; assumption.
Defined.

(** ** Refresh *)

Example refresh_twice_calm :
  exists d1 d2,
    turn_on_display calm 1 new_display = Ok d1 /\
    turn_on_display calm 1 d1 = Ok d2 /\
    bus_frames (trace d1) = [Cmd [0x22]; Dat [0xF7]; Cmd [0x20]] /\
    bus_frames (trace d2) = [Cmd [0x22]; Dat [0xF7]; Cmd [0x20];
                             Cmd [0x22]; Dat [0xF7]; Cmd [0x20]].
Proof.
  do 2 eexists; split; [vm_compute; reflexivity|].
  split; [vm_compute; reflexivity|]; split; vm_compute; reflexivity.
Qed.

Lemma trace_refresh_sent d :
  trace (refresh_sent d)
  = trace d ++ [PinWrite DC 0; PinWrite CS 0; SpiWrite 0 0 [0x22]; PinWrite CS 1;
                PinWrite DC 1; PinWrite CS 0; SpiWrite 0 1 [0xF7]; PinWrite CS 1;
                PinWrite DC 0; PinWrite CS 0; SpiWrite 0 0 [0x20]; PinWrite CS 1].
Proof. simpl; rewrite <- !app_assoc; reflexivity. Qed.

(** C8. [turn_on_display] (refresh) does the same thing every time: on a
    transport that does not fail and a busy line that idles again, a call
    sends command 0x22, data 0xF7, command 0x20, then polls until the busy
    line reads 0, and returns. A second call right after the first sends
    the same three frames again and returns the same way; neither call
    touches the reset line or the geometry, neither sends a reset or sleep
    command, and both leave the select lines as they found them after the
    first call, so the controller is as ready after the second call as
    after the first. *)
Theorem turn_on_display_twice_same_sequence (W : world) (d : EPaperDisplay) :
  transport_ok W -> eventually_idle W ->
  exists fuel0 n1 n2, forall fuel, (fuel0 <= fuel)%nat ->
    exists d1 d2,
      turn_on_display W fuel d = Ok d1 /\
      turn_on_display W fuel d1 = Ok d2 /\
      bus_frames (trace d1)
      = bus_frames (trace d) ++ [Cmd [0x22]; Dat [0xF7]; Cmd [0x20]] /\
      bus_frames (trace d2)
      = bus_frames (trace d1) ++ [Cmd [0x22]; Dat [0xF7]; Cmd [0x20]] /\
      trace d1
      = trace (refresh_sent d)
        ++ [Print "e-Paper: waiting for display to be ready..."]
        ++ poll_trace n1 ++ [BusyRead 0; Print "e-Paper: display ready"] /\
      trace d2
      = trace (refresh_sent d1)
        ++ [Print "e-Paper: waiting for display to be ready..."]
        ++ poll_trace n2 ++ [BusyRead 0; Print "e-Paper: display ready"] /\
      (rst d1, width d1, height d1) = (rst d, width d, height d) /\
      (rst d2, dc d2, cs d2, width d2, height d2)
      = (rst d1, dc d1, cs d1, width d1, height d1) /\
      cs d1 = 1.
Proof.
  intros HW HI.
  destruct (idle_ahead W (refresh_sent d) HI) as [n1 H1].
  pose (d1 := waited n1 (refresh_sent d)).
  destruct (idle_ahead W (refresh_sent d1) HI) as [n2 H2].
  exists (S (Nat.max n1 n2)), n1, n2; intros fuel Hfuel.
  exists d1, (waited n2 (refresh_sent d1)).
  split; [apply (turn_on_display_ok W HW n1 d fuel H1); lia|].
  split; [apply (turn_on_display_ok W HW n2 d1 fuel H2); lia|].
  split; [unfold d1; frames; reflexivity|].
  split; [frames; reflexivity|].
  split; [apply trace_waited|].
  split; [apply trace_waited|].
  repeat split.
Qed.

Lemma turn_on_display_twice_same_sequence_witness :
  transport_ok (busy_for 2) /\ eventually_idle (busy_for 2) /\
  exists fuel d1 d2,
    turn_on_display (busy_for 2) fuel new_display = Ok d1 /\
    turn_on_display (busy_for 2) fuel d1 = Ok d2 /\
    bus_frames (trace d2)
    = [Cmd [0x22]; Dat [0xF7]; Cmd [0x20]; Cmd [0x22]; Dat [0xF7]; Cmd [0x20]].
Proof.
  split; [exact (busy_for_transport_ok 2)|].
  split; [exact (busy_for_eventually_idle 2)|].
  destruct (turn_on_display_twice_same_sequence (busy_for 2) new_display
              (busy_for_transport_ok 2) (busy_for_eventually_idle 2))
    as (fuel0 & n1 & n2 & H).
  destruct (H fuel0 (le_n fuel0)) as (d1 & d2 & R1 & R2 & F1 & F2 & _).
  exists fuel0, d1, d2; split; [exact R1|]; split; [exact R2|].
  rewrite F2, F1; reflexivity.
Defined.

(** ** Frames *)

Lemma frames_display_sent image d :
  bus_frames (trace (display_sent image d))
  = bus_frames (trace d)
    ++ [Cmd [0x4E]; Dat [0x00]; Cmd [0x4F]; Dat [0x00]; Dat [0x00];
        Cmd [0x24]; Dat image;
        Cmd [0x22]; Dat [0xF7]; Cmd [0x20]].
Proof. frames; reflexivity. Qed.

Lemma display_returns W image d :
  transport_ok W -> eventually_idle W ->
  Forall (fun b => 0 <= b <= 255) image ->
  exists n, forall fuel, (n < fuel)%nat ->
    display W fuel image d = Ok (waited n (display_sent image d)).
Proof.
  intros HW HI Himg.
  destruct (idle_ahead W (display_sent image d) HI) as [n Hn].
  exists n; intros fuel Hfuel.
  exact (display_ok W HW n image d fuel Himg Hn Hfuel).
Qed.

(** C1, the claim as written fails: a one-byte buffer, on a controller
    that was constructed and never initialised, is written to the panel
    and refreshed. *)
Lemma display_accepts_short_buffer_before_init :
  List.length [0xFF] = 1%nat /\
  height new_display * linewidth (width new_display) = 4000 /\
  trace new_display = [] /\
  exists d',
    display calm 1 [0xFF] new_display = Ok d' /\
    bus_frames (trace d')
    = [Cmd [0x4E]; Dat [0x00]; Cmd [0x4F]; Dat [0x00]; Dat [0x00];
       Cmd [0x24]; Dat [0xFF];
       Cmd [0x22]; Dat [0xF7]; Cmd [0x20]].
Proof.
  repeat (split; [reflexivity|]).
  eexists; split; [vm_compute; reflexivity | vm_compute; reflexivity].
Qed.

(** C1, as the code has it. [display] (write_frame) looks at neither the
    length of the buffer nor any state of the controller: for a buffer of
    byte values of any length, from any state, on a transport that does
    not fail and a busy line that idles again, it returns, having sent
    the cursor (0, 0), opcode 0x24, the whole buffer as one burst, and
    the refresh sequence. *)
Theorem display_checks_neither_length_nor_state
  (W : world) (d : EPaperDisplay) (image : list Z) :
  transport_ok W -> eventually_idle W ->
  Forall (fun b => 0 <= b <= 255) image ->
  exists fuel0, forall fuel, (fuel0 <= fuel)%nat ->
    exists d',
      display W fuel image d = Ok d' /\
      bus_frames (trace d')
      = bus_frames (trace d)
        ++ [Cmd [0x4E]; Dat [0x00]; Cmd [0x4F]; Dat [0x00]; Dat [0x00];
            Cmd [0x24]; Dat image;
            Cmd [0x22]; Dat [0xF7]; Cmd [0x20]].
Proof.
  intros HW HI Himg.
  destruct (display_returns W image d HW HI Himg) as [n Hn].
  exists (S n); intros fuel Hfuel.
  exists (waited n (display_sent image d)); split; [apply Hn; lia|].
  rewrite frames_waited; apply frames_display_sent.
Qed.

Lemma display_checks_neither_length_nor_state_witness :
  transport_ok (busy_for 3) /\ eventually_idle (busy_for 3) /\
  Forall (fun b => 0 <= b <= 255) [0x0F; 0xF0; 0xAA] /\
  exists fuel d',
    display (busy_for 3) fuel [0x0F; 0xF0; 0xAA] new_display = Ok d' /\
    bus_frames (trace d')
    = [Cmd [0x4E]; Dat [0x00]; Cmd [0x4F]; Dat [0x00]; Dat [0x00];
       Cmd [0x24]; Dat [0x0F; 0xF0; 0xAA];
       Cmd [0x22]; Dat [0xF7]; Cmd [0x20]].
Proof.
  assert (Himg : Forall (fun b => 0 <= b <= 255) [0x0F; 0xF0; 0xAA])
    by (repeat constructor; lia).
  split; [exact (busy_for_transport_ok 3)|].
  split; [exact (busy_for_eventually_idle 3)|].
  split; [exact Himg|].
  destruct (display_checks_neither_length_nor_state (busy_for 3) new_display
              [0x0F; 0xF0; 0xAA]
              (busy_for_transport_ok 3) (busy_for_eventually_idle 3) Himg)
    as [fuel0 H].
  destruct (H fuel0 (le_n fuel0)) as (d' & Hrun & Hfr).
  exists fuel0, d'; split; [exact Hrun | exact Hfr].
Defined.

(** ** Clear *)

Lemma clear_buffer_size : Z.to_nat (DISPLAY_HEIGHT * linewidth DISPLAY_WIDTH) = 4000%nat.
Proof. vm_compute; reflexivity. Qed.

Lemma Forall_repeat (P : Z -> Prop) c n : P c -> Forall P (repeat c n).
Proof. intros Hc; induction n; simpl; constructor; assumption. Qed.

(** C6. On the fixed geometry [clear] computes a line width of 16 bytes
    and builds a buffer of 250 * 16 = 4000 elements, every one the fill
    byte; from there it is [display] of that buffer, so the two calls have
    the same outcome: the same final state, log included, or the same
    exception. Without an argument the fill byte is 0xFF. *)
Theorem clear_is_display_of_filled_buffer
  (W : world) (fuel : nat) (color : option Z) (d : EPaperDisplay) :
  width d = DISPLAY_WIDTH -> height d = DISPLAY_HEIGHT ->
  linewidth (width d) = 16 /\
  clear_buffer (arg_or 0xFF color) d = repeat (arg_or 0xFF color) 4000 /\
  List.length (clear_buffer (arg_or 0xFF color) d) = 4000%nat /\
  Forall (fun b => b = arg_or 0xFF color) (clear_buffer (arg_or 0xFF color) d) /\
  clear W fuel color d = display W fuel (repeat (arg_or 0xFF color) 4000) d /\
  clear W fuel None d = display W fuel (repeat 0xFF 4000) d.
Proof.
  intros Hw Hh.
  assert (Hbuf : forall c, clear_buffer c d = repeat c 4000).
  { intros c; unfold clear_buffer; rewrite Hw, Hh, clear_buffer_size; reflexivity. }
  split; [rewrite Hw; reflexivity|].
  split; [apply Hbuf|].
  split; [rewrite Hbuf; apply repeat_length|].
  split; [unfold clear_buffer; apply Forall_repeat; reflexivity|].
  unfold clear; rewrite !Hbuf; split; reflexivity.
Qed.

Lemma clear_is_display_of_filled_buffer_witness :
  width new_display = DISPLAY_WIDTH /\ height new_display = DISPLAY_HEIGHT /\
  List.length (clear_buffer (arg_or 0xFF None) new_display) = 4000%nat /\
  clear (busy_for 2) 3 None new_display
  = display (busy_for 2) 3 (repeat 0xFF 4000) new_display.
Proof.
  split; [reflexivity|]; split; [reflexivity|].
  destruct (clear_is_display_of_filled_buffer (busy_for 2) 3 None new_display
              eq_refl eq_refl) as (_ & _ & Hlen & _ & _ & Hrun).
  split; [exact Hlen | exact Hrun].
Defined.

(** ** Sequences of calls *)

Lemma forallb_is_byte l :
  forallb is_byte l = true -> Forall (fun b => 0 <= b <= 255) l.
Proof.
  intros H; apply Forall_forall; intros x Hx.
  apply is_byte_iff; rewrite forallb_forall in H; auto.
Qed.

Lemma call_returns W m d :
  transport_ok W -> eventually_idle W -> args_are_bytes m = true ->
  exists n d', forall fuel, (n < fuel)%nat -> call W fuel m d = Ok d'.
Proof.
  intros HW HI Hargs; destruct m; simpl in *.
  - destruct (idle_ahead W (hw_reset_pulsed d) HI) as [n Hn].
    exists n; eexists; intros fuel Hf; apply (hw_reset_ok W n d fuel Hn Hf).
  - destruct (idle_ahead W d HI) as [n Hn].
    exists n; eexists; intros fuel Hf; apply (sw_reset_ok W HW n d fuel Hn Hf).
  - destruct (init_returns W d HW HI) as (n1 & n2 & n3 & Hrun).
    exists (Nat.max n1 (Nat.max n2 n3)); eexists; intros fuel Hf; apply Hrun; lia.
  - exists O; eexists; intros fuel _; apply set_window_ok; exact HW.
  - exists O; eexists; intros fuel _; apply set_cursor_ok; exact HW.
  - destruct (display_returns W image d HW HI (forallb_is_byte _ Hargs)) as [n Hn].
    exists n; eexists; exact Hn.
  - destruct (idle_ahead W (refresh_sent d) HI) as [n Hn].
    exists n; eexists; intros fuel Hf; apply (turn_on_display_ok W HW n d fuel Hn Hf).
  - unfold clear.
    assert (Hbuf : Forall (fun b => 0 <= b <= 255) (clear_buffer (arg_or 0xFF color) d))
      by (unfold clear_buffer; apply Forall_repeat, is_byte_iff; exact Hargs).
    destruct (display_returns W _ d HW HI Hbuf) as [n Hn].
    exists n; eexists; exact Hn.
  - exists O; eexists; intros fuel _; apply deep_sleep_ok; exact HW.
  - exists O; eexists; intros fuel _; apply set_border_ok; assumption.
Qed.

Lemma call_all_returns W ms : forall d,
  transport_ok W -> eventually_idle W -> forallb args_are_bytes ms = true ->
  exists n d', forall fuel, (n < fuel)%nat -> call_all W fuel ms d = Ok d'.
Proof.
  induction ms as [|m rest IH]; intros d HW HI Hargs.
  - exists O, d; intros fuel _; reflexivity.
  - simpl in Hargs; apply andb_true_iff in Hargs as [Hm Hrest].
    destruct (call_returns W m d HW HI Hm) as (n1 & d1 & H1).
    destruct (IH d1 HW HI Hrest) as (n2 & d2 & H2).
    exists (Nat.max n1 n2), d2; intros fuel Hf; simpl.
    rewrite (seq_Ok _ _ d d1) by (apply H1; lia).
    apply H2; lia.
Qed.

(** C2, the claim as written fails: [deep_sleep] is accepted on a
    controller that was only constructed, and after [init] and
    [deep_sleep] a refresh is accepted as well and sends its frames. *)
Lemma calls_accepted_before_reset_and_after_sleep :
  exists d1 d2 d3 d4,
    trace new_display = [] /\
    deep_sleep calm new_display = Ok d1 /\
    bus_frames (trace d1) = [Cmd [0x10]; Dat [0x01]] /\
    init calm 1 new_display = Ok d2 /\
    deep_sleep calm d2 = Ok d3 /\
    turn_on_display calm 1 d3 = Ok d4 /\
    bus_frames (trace d4)
    = bus_frames (trace d3) ++ [Cmd [0x22]; Dat [0xF7]; Cmd [0x20]].
Proof.
  do 4 eexists; split; [reflexivity|].
  repeat (split; [vm_compute; reflexivity|]).
  vm_compute; reflexivity.
Qed.

(** C2, as the code has it. The object has no power state and no method
    looks at what was called before: any list of calls, in any order and
    from any state of the object, runs to its end without an exception on
    a transport that does not fail and a busy line that idles again,
    provided the buffers and optional arguments are byte values. *)
Theorem calls_are_not_gated_by_a_power_state
  (W : world) (ms : list method) (d : EPaperDisplay) :
  transport_ok W -> eventually_idle W -> forallb args_are_bytes ms = true ->
  exists fuel0 d', forall fuel, (fuel0 <= fuel)%nat ->
    call_all W fuel ms d = Ok d'.
Proof.
  intros HW HI Hargs.
  destruct (call_all_returns W ms d HW HI Hargs) as (n & d' & Hrun).
  exists (S n), d'; intros fuel Hf; apply Hrun; lia.
Qed.

Lemma calls_are_not_gated_by_a_power_state_witness :
  transport_ok (busy_for 5) /\ eventually_idle (busy_for 5) /\
  forallb args_are_bytes
    [TurnOnDisplay; DeepSleep; Display [0x00; 0xFF]; SetWindow 0 0 121 249;
     Init; DeepSleep; TurnOnDisplay; SetBorder None; HwReset] = true /\
  exists fuel0 d', forall fuel, (fuel0 <= fuel)%nat ->
    call_all (busy_for 5) fuel
      [TurnOnDisplay; DeepSleep; Display [0x00; 0xFF]; SetWindow 0 0 121 249;
       Init; DeepSleep; TurnOnDisplay; SetBorder None; HwReset] new_display
    = Ok d'.
Proof.
  split; [exact (busy_for_transport_ok 5)|].
  split; [exact (busy_for_eventually_idle 5)|].
  split; [reflexivity|].
  exact (calls_are_not_gated_by_a_power_state (busy_for 5)
           [TurnOnDisplay; DeepSleep; Display [0x00; 0xFF]; SetWindow 0 0 121 249;
            Init; DeepSleep; TurnOnDisplay; SetBorder None; HwReset]
           new_display
           (busy_for_transport_ok 5) (busy_for_eventually_idle 5) eq_refl).
Defined.

(** * More of the driver *)

(** ** Exits of a framed write *)

Lemma bytes_Some l l' : bytes l = Some l' -> l' = l /\ Forall (fun b => 0 <= b <= 255) l.
Proof.
  unfold bytes; destruct (forallb is_byte l) eqn:E; [|discriminate].
  intros H; injection H as <-; split; [reflexivity|].
  apply Forall_forall; intros x Hx; apply is_byte_iff.
  rewrite forallb_forall in E; auto.
Qed.

(** The three exits of [dc.value(v); cs.value(0); spi.write(bytes(l));
    cs.value(1)]. *)
Lemma send_exits W v l d :
  (bytes l = None /\
   (pin_value DC v ;; pin_value CS 0 ;; spi_write_bytes W l ;; pin_value CS 1) d
   = Raise ValueError
       (mkDisplay (rst d) v 0 (width d) (height d)
                  (trace d ++ [PinWrite DC v; PinWrite CS 0])
                  (spi_calls d) (busy_reads d)))
  \/ (bytes l = Some l /\ spi_fails W (spi_calls d) = true /\
      (pin_value DC v ;; pin_value CS 0 ;; spi_write_bytes W l ;; pin_value CS 1) d
      = Raise TransportError
          (mkDisplay (rst d) v 0 (width d) (height d)
                     (trace d ++ [PinWrite DC v; PinWrite CS 0])
                     (S (spi_calls d)) (busy_reads d)))
  \/ (bytes l = Some l /\ spi_fails W (spi_calls d) = false /\
      (pin_value DC v ;; pin_value CS 0 ;; spi_write_bytes W l ;; pin_value CS 1) d
      = Ok (framed v l d)).
Proof.
  unfold spi_write_bytes; destruct (bytes l) as [l'|] eqn:E.
  - destruct (bytes_Some _ _ E) as [-> _].
    destruct (framed_write_exits W v l d) as [[Hs Hrun] | [Hs Hrun]].
    + right; right; auto.
    + right; left; auto.
  - left; split; [reflexivity|].
    unfold seq, pin_value, raise, emit, set_line; simpl.
    rewrite <- !app_assoc; reflexivity.
Qed.

(** ** Soundness of every method *)

(** Splits a [Forall event_ok] over an explicit list into its events. *)
Ltac events_ok :=
  repeat first [apply Forall_nil | apply Forall_cons]; simpl;
  try exact I; try (left; reflexivity); try (right; reflexivity); try assumption.

Lemma grown_refl d : grown d d.
Proof.
  repeat split; try lia.
  exists []; split; [symmetry; apply app_nil_r | constructor].
Qed.

Lemma grown_trans d1 d2 d3 : grown d1 d2 -> grown d2 d3 -> grown d1 d3.
Proof.
  intros (Hw1 & Hh1 & Hs1 & Hb1 & t1 & Ht1 & Hok1) (Hw2 & Hh2 & Hs2 & Hb2 & t2 & Ht2 & Hok2).
  repeat split; try congruence; try lia.
  exists (t1 ++ t2); split.
  - rewrite Ht2, Ht1, app_assoc; reflexivity.
  - apply Forall_app; split; assumption.
Qed.

Lemma grown_emit e d : event_ok e -> grown d (emit e d).
Proof.
  intros He; repeat split; simpl; try lia.
  exists [e]; split; [reflexivity | events_ok].
Qed.

Lemma sound_seq W a b : sound W a -> sound W b -> sound W (a ;; b).
Proof.
  intros Ha Hb d; unfold seq; specialize (Ha d).
  destruct (a d) as [d1 | e d1 |]; [| exact Ha | exact I].
  specialize (Hb d1); destruct (b d1) as [d2 | e d2 |]; [| | exact I].
  - exact (grown_trans _ _ _ Ha Hb).
  - destruct Hb as (Hg & Hcs & Hcause); split; [exact (grown_trans _ _ _ Ha Hg)|].
    split; [exact Hcs|]; intros He.
    destruct (Hcause He) as (k & Hk & Hle & Hf); exists k.
    destruct Ha as (_ & _ & Hs & _); repeat split; try assumption; lia.
Qed.

Lemma sound_pin_value W l v : v = 0 \/ v = 1 -> sound W (pin_value l v).
Proof.
  intros Hv d; unfold pin_value.
  repeat split; try (destruct l; simpl; lia); try (destruct l; reflexivity).
  exists [PinWrite l v]; split; [destruct l; reflexivity | events_ok].
Qed.

Lemma sound_sleep_us W n : sound W (sleep_us n).
Proof. intros d; apply grown_emit; exact I. Qed.

Lemma sound_sleep_ms W n : sound W (sleep_ms n).
Proof. intros d; apply grown_emit; exact I. Qed.

Lemma sound_print W msg : sound W (print msg).
Proof. intros d; apply grown_emit; exact I. Qed.

Lemma sound_send W v l :
  v = 0 \/ v = 1 -> (v = 0 -> List.length l = 1%nat) ->
  sound W (pin_value DC v ;; pin_value CS 0 ;; spi_write_bytes W l ;; pin_value CS 1).
Proof.
  intros Hv Hlen d.
  assert (Hpins : Forall event_ok [PinWrite DC v; PinWrite CS 0]) by events_ok.
  destruct (send_exits W v l d) as [[_ ->] | [(Hb & Hf & ->) | (Hb & Hf & ->)]].
  - split; [|split; [reflexivity | discriminate]].
    repeat split; simpl; try lia; eexists; split; [reflexivity | exact Hpins].
  - split; [|split; [reflexivity|]].
    + repeat split; simpl; try lia; eexists; split; [reflexivity | exact Hpins].
    + intros _; exists (spi_calls d); simpl; repeat split; [lia | exact Hf].
  - destruct (bytes_Some _ _ Hb) as [_ Hbytes].
    repeat split; simpl; try lia; eexists; split; [reflexivity|].
    events_ok; repeat split; assumption.
Qed.

Lemma sound_send_command W c : sound W (send_command W c).
Proof. apply sound_send; [left; reflexivity | reflexivity]. Qed.

Lemma sound_send_data W b : sound W (send_data W b).
Proof. apply sound_send; [right; reflexivity | discriminate]. Qed.

Lemma sound_send_bytes W data : sound W (send_bytes W data).
Proof. apply sound_send; [right; reflexivity | discriminate]. Qed.

Lemma sound_wait_loop W fuel : sound W (wait_loop W fuel).
Proof.
  induction fuel as [|fuel IH]; intros d; [exact I|].
  simpl. destruct (busy_line W (busy_reads d)) eqn:E; simpl.
  - assert (H0 : grown d (emit (SleepMs 10) (emit (BusyRead 1) (count_busy_read d)))).
    { repeat split; simpl; try lia.
      exists [BusyRead 1; SleepMs 10]; split; [rewrite <- app_assoc; reflexivity|].
      events_ok. }
    unfold seq, sleep_ms.
    specialize (IH (emit (SleepMs 10) (emit (BusyRead 1) (count_busy_read d)))).
    destruct (wait_loop W fuel _) as [d2 | e d2 |]; [| | exact I].
    + exact (grown_trans _ _ _ H0 IH).
    + destruct IH as (Hg & Hcs & Hcause); split; [exact (grown_trans _ _ _ H0 Hg)|].
      split; [exact Hcs|]; intros He.
      destruct (Hcause He) as (k & Hk & Hle & Hf); exists k; simpl in Hle.
      repeat split; assumption.
  - repeat split; simpl; try lia.
    exists [BusyRead 0]; split; [reflexivity | events_ok].
Qed.

Create HintDb sound.
#[export] Hint Resolve sound_seq sound_pin_value sound_sleep_us sound_sleep_ms
  sound_print sound_send_command sound_send_data sound_send_bytes
  sound_wait_loop : sound.
#[export] Hint Extern 1 (_ = _ \/ _ = _) => (left; reflexivity) : sound.
#[export] Hint Extern 1 (_ = _ \/ _ = _) => (right; reflexivity) : sound.

Lemma sound_wait_until_idle W fuel : sound W (wait_until_idle W fuel).
Proof. unfold wait_until_idle; auto with sound. Qed.

#[export] Hint Resolve sound_wait_until_idle : sound.

Lemma sound_power_off W : sound W power_off.
Proof. unfold power_off; auto 10 with sound. Qed.

Lemma sound_hw_reset W fuel : sound W (hw_reset W fuel).
Proof. unfold hw_reset; auto 12 with sound. Qed.

Lemma sound_sw_reset W fuel : sound W (sw_reset W fuel).
Proof. unfold sw_reset; auto with sound. Qed.

Lemma sound_set_display_size_and_driver_output W :
  sound W (set_display_size_and_driver_output W).
Proof. unfold set_display_size_and_driver_output; auto 10 with sound. Qed.

Lemma sound_set_ram_data_entry_mode W mode : sound W (set_ram_data_entry_mode W mode).
Proof. unfold set_ram_data_entry_mode; auto with sound. Qed.

Lemma sound_display_update W : sound W (display_update W).
Proof. unfold display_update; auto with sound. Qed.

#[export] Hint Resolve sound_display_update : sound.

Lemma sound_turn_on_display W fuel : sound W (turn_on_display W fuel).
Proof. unfold turn_on_display; auto with sound. Qed.

Lemma sound_set_window W x0 y0 x1 y1 : sound W (set_window W x0 y0 x1 y1).
Proof. unfold set_window; auto 20 with sound. Qed.

Lemma sound_set_cursor W x y : sound W (set_cursor W x y).
Proof. unfold set_cursor; auto 12 with sound. Qed.

Lemma sound_set_border W value : sound W (set_border W value).
Proof. unfold set_border; auto with sound. Qed.

Lemma sound_deep_sleep W : sound W (deep_sleep W).
Proof. unfold deep_sleep; auto with sound. Qed.

#[export] Hint Resolve sound_power_off sound_hw_reset sound_sw_reset
  sound_set_display_size_and_driver_output sound_set_ram_data_entry_mode
  sound_turn_on_display sound_set_window sound_set_cursor sound_set_border
  sound_deep_sleep : sound.

Lemma sound_display W fuel image : sound W (display W fuel image).
Proof. unfold display; auto 10 with sound. Qed.

Lemma sound_clear W fuel color : sound W (clear W fuel color).
Proof. intros d; unfold clear; apply sound_display. Qed.

Lemma sound_init W fuel : sound W (init W fuel).
Proof.
  intros d; unfold init.
  assert (H : sound W
                (hw_reset W fuel ;; sw_reset W fuel ;;
                 set_display_size_and_driver_output W ;;
                 set_ram_data_entry_mode W None ;;
                 (fun d' => set_window W 0 0 (width d' - 1) (height d' - 1) d') ;;
                 set_border W None ;; wait_until_idle W fuel)).
  { apply sound_seq; [apply sound_hw_reset|].
    apply sound_seq; [apply sound_sw_reset|].
    apply sound_seq; [apply sound_set_display_size_and_driver_output|].
    apply sound_seq; [apply sound_set_ram_data_entry_mode|].
    apply sound_seq; [intros d'; apply sound_set_window|].
    apply sound_seq; [apply sound_set_border | apply sound_wait_until_idle]. }
  exact (H d).
Qed.

#[export] Hint Resolve sound_display sound_clear sound_init : sound.

Lemma sound_call W fuel m : sound W (call W fuel m).
Proof. destruct m; simpl; auto with sound. Qed.

Lemma sound_invoke W fuel m : sound W (invoke W fuel m).
Proof. destruct m; simpl; auto using sound_call with sound. Qed.

Lemma sound_invoke_all W fuel ms : sound W (invoke_all W fuel ms).
Proof.
  induction ms as [|m rest IH]; simpl.
  - intros d; apply grown_refl.
  - apply sound_seq; [apply sound_invoke | exact IH].
Qed.

(** ** Where [ValueError] can come from *)

Lemma byte_safe_seq a b : byte_safe a -> byte_safe b -> byte_safe (a ;; b).
Proof.
  intros Ha Hb d d' Hrun; unfold seq in Hrun.
  destruct (a d) as [d1 | e d1 |] eqn:E; [| | discriminate].
  - exact (Hb d1 d' Hrun).
  - injection Hrun as -> ->; exact (Ha d d' E).
Qed.

Lemma byte_safe_pin_value l v : byte_safe (pin_value l v).
Proof. intros d d'; discriminate. Qed.

Lemma byte_safe_sleep_us n : byte_safe (sleep_us n).
Proof. intros d d'; discriminate. Qed.

Lemma byte_safe_sleep_ms n : byte_safe (sleep_ms n).
Proof. intros d d'; discriminate. Qed.

Lemma byte_safe_print msg : byte_safe (print msg).
Proof. intros d d'; discriminate. Qed.

Lemma byte_safe_send W v l :
  bytes l = Some l ->
  byte_safe (pin_value DC v ;; pin_value CS 0 ;; spi_write_bytes W l ;; pin_value CS 1).
Proof.
  intros Hb d d'.
  destruct (send_exits W v l d) as [[Hn _] | [(_ & _ & ->) | (_ & _ & ->)]];
    [congruence | discriminate | discriminate].
Qed.

Lemma byte_safe_send_command W c : is_byte c = true -> byte_safe (send_command W c).
Proof. intros Hc; apply byte_safe_send, bytes_one, Hc. Qed.

Lemma byte_safe_send_data W b : is_byte b = true -> byte_safe (send_data W b).
Proof. intros Hb; apply byte_safe_send, bytes_one, Hb. Qed.

Lemma byte_safe_send_bytes W data :
  forallb is_byte data = true -> byte_safe (send_bytes W data).
Proof.
  intros Hd; apply byte_safe_send, bytes_Forall, forallb_is_byte, Hd.
Qed.

Lemma byte_safe_wait_loop W fuel : byte_safe (wait_loop W fuel).
Proof.
  intros d d' Hrun.
  pose proof (sound_wait_loop W fuel d) as Hs.
  destruct (wait_loop_cases W fuel d) as [(n & _ & _ & Hok) | (_ & Hout)]; congruence.
Qed.

Create HintDb byte_safe.
#[export] Hint Resolve byte_safe_seq byte_safe_pin_value byte_safe_sleep_us
  byte_safe_sleep_ms byte_safe_print byte_safe_send_command byte_safe_send_data
  byte_safe_send_bytes byte_safe_wait_loop land_255_byte : byte_safe.
#[export] Hint Extern 1 (is_byte _ = true) => reflexivity : byte_safe.

Lemma byte_safe_wait_until_idle W fuel : byte_safe (wait_until_idle W fuel).
Proof. unfold wait_until_idle; auto with byte_safe. Qed.

#[export] Hint Resolve byte_safe_wait_until_idle : byte_safe.

Lemma byte_safe_turn_on_display W fuel : byte_safe (turn_on_display W fuel).
Proof. unfold turn_on_display, display_update; auto 10 with byte_safe. Qed.

Lemma byte_safe_set_window W x0 y0 x1 y1 : byte_safe (set_window W x0 y0 x1 y1).
Proof. unfold set_window; auto 20 with byte_safe. Qed.

Lemma byte_safe_set_cursor W x y : byte_safe (set_cursor W x y).
Proof. unfold set_cursor; auto 12 with byte_safe. Qed.

#[export] Hint Resolve byte_safe_turn_on_display byte_safe_set_window
  byte_safe_set_cursor : byte_safe.

Lemma byte_safe_display W fuel image :
  forallb is_byte image = true -> byte_safe (display W fuel image).
Proof. intros Hi; unfold display; auto 10 with byte_safe. Qed.

Lemma byte_safe_init W fuel : byte_safe (init W fuel).
Proof.
  intros d; unfold init.
  assert (H : byte_safe
                (hw_reset W fuel ;; sw_reset W fuel ;;
                 set_display_size_and_driver_output W ;;
                 set_ram_data_entry_mode W None ;;
                 (fun d' => set_window W 0 0 (width d' - 1) (height d' - 1) d') ;;
                 set_border W None ;; wait_until_idle W fuel)).
  { apply byte_safe_seq; [unfold hw_reset; auto 12 with byte_safe|].
    apply byte_safe_seq; [unfold sw_reset; auto with byte_safe|].
    apply byte_safe_seq;
      [unfold set_display_size_and_driver_output; auto 10 with byte_safe|].
    apply byte_safe_seq; [unfold set_ram_data_entry_mode; auto with byte_safe|].
    apply byte_safe_seq; [intros d1 d2; apply byte_safe_set_window|].
    apply byte_safe_seq; [unfold set_border; auto with byte_safe|].
    apply byte_safe_wait_until_idle. }
  exact (H d).
Qed.

Lemma byte_safe_call W fuel m :
  args_are_bytes m = true -> byte_safe (call W fuel m).
Proof.
  intros Hargs; destruct m; simpl in *.
  - unfold hw_reset; auto 12 with byte_safe.
  - unfold sw_reset; auto with byte_safe.
  - apply byte_safe_init.
  - apply byte_safe_set_window.
  - apply byte_safe_set_cursor.
  - apply byte_safe_display; exact Hargs.
  - apply byte_safe_turn_on_display.
  - intros d; unfold clear; apply byte_safe_display.
    unfold clear_buffer; apply forallb_forall; intros x Hx.
    apply repeat_spec in Hx; subst x; exact Hargs.
  - unfold deep_sleep; auto with byte_safe.
  - unfold set_border; auto with byte_safe.
Qed.

Lemma byte_safe_invoke W fuel m :
  byte_args m = true -> byte_safe (invoke W fuel m).
Proof.
  intros Hargs; destruct m; simpl in *.
  - apply byte_safe_call; exact Hargs.
  - unfold power_off; auto 10 with byte_safe.
  - unfold set_display_size_and_driver_output; auto 10 with byte_safe.
  - unfold set_ram_data_entry_mode; auto with byte_safe.
  - apply byte_safe_send_command; exact Hargs.
  - apply byte_safe_send_data; exact Hargs.
  - apply byte_safe_send_bytes; exact Hargs.
  - apply byte_safe_wait_until_idle.
  - unfold display_update; auto with byte_safe.
Qed.

Lemma byte_safe_invoke_all W fuel ms :
  forallb byte_args ms = true -> byte_safe (invoke_all W fuel ms).
Proof.
  induction ms as [|m rest IH]; simpl; intros Hargs.
  - intros d d'; discriminate.
  - apply andb_true_iff in Hargs as [Hm Hrest].
    apply byte_safe_seq; [apply byte_safe_invoke; exact Hm | exact (IH Hrest)].
Qed.

(** ** Invariants of every sequence of calls *)

(** X1. The bus discipline is an invariant of the object: whatever
    methods are called, with whatever arguments, on whatever transport
    and busy line, and whether the last call returned or raised, every
    write in the log was made with chip-select at 0, every write made with
    data/command at 0 is a single byte, and everything written is a byte
    value. *)
Theorem log_stays_well_formed
  (W : world) (fuel : nat) (ms : list any_method) (d d' : EPaperDisplay) :
  Forall event_ok (trace d) ->
  final (invoke_all W fuel ms d) = Some d' ->
  Forall event_ok (trace d').
Proof.
  intros Hd Hfin; pose proof (sound_invoke_all W fuel ms d) as Hs.
  destruct (invoke_all W fuel ms d) as [d1 | e d1 |]; simpl in Hfin;
    [injection Hfin as -> | injection Hfin as -> | discriminate].
  - destruct Hs as (_ & _ & _ & _ & t & -> & Ht); apply Forall_app; split; assumption.
  - destruct Hs as ((_ & _ & _ & _ & t & -> & Ht) & _).
    apply Forall_app; split; assumption.
Qed.

Lemma log_stays_well_formed_witness :
  Forall event_ok (trace new_display) /\
  exists d',
    invoke_all (failing_at 12) 1
      [Public Init; SendBytes [0x00; 0x100]; Public (Display [0xAA])] new_display
    = Raise TransportError d' /\
    Forall event_ok (trace d').
Proof.
  split; [constructor|].
  eexists; split; [vm_compute; reflexivity|].
  apply (log_stays_well_formed (failing_at 12) 1
           [Public Init; SendBytes [0x00; 0x100]; Public (Display [0xAA])]
           new_display); [constructor | vm_compute; reflexivity].
Defined.

(** X2. No method changes the geometry or erases the log: after any
    sequence of calls, returned or raised, [width] and [height] are what
    they were and the log is the old log with events added. *)
Theorem geometry_is_never_changed
  (W : world) (fuel : nat) (ms : list any_method) (d d' : EPaperDisplay) :
  final (invoke_all W fuel ms d) = Some d' ->
  width d' = width d /\ height d' = height d /\
  exists t, trace d' = trace d ++ t.
Proof.
  intros Hfin; pose proof (sound_invoke_all W fuel ms d) as Hs.
  destruct (invoke_all W fuel ms d) as [d1 | e d1 |]; simpl in Hfin;
    [injection Hfin as -> | injection Hfin as -> | discriminate].
  - destruct Hs as (Hw & Hh & _ & _ & t & Ht & _); eauto.
  - destruct Hs as ((Hw & Hh & _ & _ & t & Ht & _) & _); eauto.
Qed.

Lemma geometry_is_never_changed_witness :
  exists d',
    final (invoke_all (busy_for 2) 3
             [Public (Display [0x0F; 0xF0]); PowerOff; Public (SetWindow 8 0 15 7)]
             new_display) = Some d' /\
    width d' = 122 /\ height d' = 250.
Proof.
  eexists; split; [vm_compute; reflexivity|].
  match goal with
  | |- width ?d' = _ /\ _ =>
      assert (Hfin : final (invoke_all (busy_for 2) 3
                              [Public (Display [0x0F; 0xF0]); PowerOff;
                               Public (SetWindow 8 0 15 7)] new_display) = Some d')
        by (vm_compute; reflexivity);
      destruct (geometry_is_never_changed _ _ _ _ _ Hfin) as (Hw & Hh & _)
  end.
  split; [exact Hw | exact Hh].
Defined.

(** X3. Every exception, out of any method, leaves chip-select at 0. The
    transport's error only comes from a write that failed during the
    calls, and [ValueError] only from a call with an argument that is not
    a byte value: with byte arguments everywhere no [ValueError] is
    raised. *)
Theorem exception_leaves_select_asserted
  (W : world) (fuel : nat) (ms : list any_method) (d d' : EPaperDisplay) (e : exn) :
  invoke_all W fuel ms d = Raise e d' ->
  cs d' = 0 /\
  (e = TransportError ->
   exists k, spi_calls d' = S k /\ (spi_calls d <= k)%nat /\ spi_fails W k = true) /\
  (e = ValueError -> forallb byte_args ms = false).
Proof.
  intros Hrun; pose proof (sound_invoke_all W fuel ms d) as Hs.
  rewrite Hrun in Hs; destruct Hs as (_ & Hcs & Hcause).
  split; [exact Hcs|]; split; [exact Hcause|].
  intros ->; destruct (forallb byte_args ms) eqn:E; [|reflexivity].
  exfalso; exact (byte_safe_invoke_all W fuel ms E d d' Hrun).
Qed.

Lemma exception_leaves_select_asserted_witness :
  exists d1 d2,
    invoke_all calm 1 [Public Init; Public (SetBorder (Some 0x1C0))] new_display
    = Raise ValueError d1 /\ cs d1 = 0 /\
    invoke_all (failing_at 20) 1 [Public Init; Public (Display [0x00; 0xFF])] new_display
    = Raise TransportError d2 /\ cs d2 = 0.
Proof.
  do 2 eexists.
  split; [vm_compute; reflexivity|].
  split.
  { match goal with
    | |- cs ?d1 = 0 =>
        assert (Hrun : invoke_all calm 1
                         [Public Init; Public (SetBorder (Some 0x1C0))] new_display
                       = Raise ValueError d1) by (vm_compute; reflexivity);
        exact (proj1 (exception_leaves_select_asserted _ _ _ _ _ _ Hrun))
    end. }
  split; [vm_compute; reflexivity|].
  match goal with
  | |- cs ?d2 = 0 =>
      assert (Hrun : invoke_all (failing_at 20) 1
                       [Public Init; Public (Display [0x00; 0xFF])] new_display
                     = Raise TransportError d2) by (vm_compute; reflexivity);
      exact (proj1 (exception_leaves_select_asserted _ _ _ _ _ _ Hrun))
  end.
Defined.

(** ** Methods that never wait *)

Lemma never_polls_seq a b : never_polls a -> never_polls b -> never_polls (a ;; b).
Proof.
  intros Ha Hb d; unfold seq.
  destruct (Ha d) as (d1 & Hfin & Hb1).
  destruct (a d) as [d0 | e d0 |]; simpl in Hfin; [| | discriminate];
    injection Hfin as ->.
  - destruct (Hb d1) as (d2 & Hfin2 & Hb2); exists d2; split; [exact Hfin2 | congruence].
  - exists d1; split; [reflexivity | exact Hb1].
Qed.

Lemma never_polls_pin_value l v : never_polls (pin_value l v).
Proof. intros d; eexists; split; [reflexivity | destruct l; reflexivity]. Qed.

Lemma never_polls_print msg : never_polls (print msg).
Proof. intros d; eexists; split; reflexivity. Qed.

Lemma never_polls_send W v l :
  never_polls (pin_value DC v ;; pin_value CS 0 ;; spi_write_bytes W l ;; pin_value CS 1).
Proof.
  intros d.
  destruct (send_exits W v l d) as [[_ ->] | [(_ & _ & ->) | (_ & _ & ->)]];
    eexists; split; reflexivity.
Qed.

Lemma never_polls_send_command W c : never_polls (send_command W c).
Proof. apply never_polls_send. Qed.

Lemma never_polls_send_data W b : never_polls (send_data W b).
Proof. apply never_polls_send. Qed.

Lemma never_polls_send_bytes W data : never_polls (send_bytes W data).
Proof. apply never_polls_send. Qed.

Create HintDb never_polls.
#[export] Hint Resolve never_polls_seq never_polls_pin_value never_polls_print
  never_polls_send_command never_polls_send_data never_polls_send_bytes
  : never_polls.

(** X4. The methods that do not call [wait_until_idle] never read the
    busy line and always come back, by return or by exception, whatever
    the transport and however busy the panel is: [set_window],
    [set_cursor], [deep_sleep], [set_border], [power_off],
    [set_display_size_and_driver_output], [set_ram_data_entry_mode],
    [display_update] and the three send primitives. *)
Theorem methods_without_wait_never_poll
  (W : world) (fuel : nat) (m : any_method) (d : EPaperDisplay) :
  polls_busy m = false ->
  exists d', final (invoke W fuel m d) = Some d' /\ busy_reads d' = busy_reads d.
Proof.
  intros Hm.
  assert (H : never_polls (invoke W fuel m)).
  { destruct m as [[] | | | | | | | |]; simpl in *; try discriminate.
    - unfold set_window; auto 20 with never_polls.
    - unfold set_cursor; auto 12 with never_polls.
    - unfold deep_sleep; auto with never_polls.
    - unfold set_border; auto with never_polls.
    - unfold power_off; auto 10 with never_polls.
    - unfold set_display_size_and_driver_output; auto 10 with never_polls.
    - unfold set_ram_data_entry_mode; auto with never_polls.
    - auto with never_polls.
    - auto with never_polls.
    - auto with never_polls.
    - unfold display_update; auto with never_polls. }
  exact (H d).
Qed.

Lemma methods_without_wait_never_poll_witness :
  polls_busy (Public DeepSleep) = false /\
  exists d',
    final (invoke stuck 0 (Public DeepSleep) new_display) = Some d' /\
    busy_reads d' = busy_reads new_display.
Proof.
  split; [reflexivity|].
  exact (methods_without_wait_never_poll stuck 0 (Public DeepSleep) new_display eq_refl).
Defined.

(** ** A busy line that never clears *)

Lemma seq_out_of_fuel (a b : action) d : a d = OutOfFuel -> (a ;; b) d = OutOfFuel.
Proof. unfold seq; intros ->; reflexivity. Qed.

Lemma wait_until_idle_stuck W fuel d :
  (forall n, busy_line W n = true) -> wait_until_idle W fuel d = OutOfFuel.
Proof.
  intros Hstuck.
  destruct (wait_until_idle_cases W fuel d) as [(n & _ & [Hidle _] & _) | (_ & Hout)].
  - rewrite Hstuck in Hidle; discriminate.
  - exact Hout.
Qed.

Lemma hw_reset_pulses W fuel d :
  hw_reset W fuel d = wait_until_idle W fuel (hw_reset_pulsed d).
Proof.
  unfold hw_reset, seq, pin_value, sleep_us; simpl.
  unfold hw_reset_pulsed, emit; simpl; rewrite <- !app_assoc; reflexivity.
Qed.

Lemma turn_on_display_stuck W fuel d :
  transport_ok W -> (forall n, busy_line W n = true) ->
  turn_on_display W fuel d = OutOfFuel.
Proof.
  intros HW Hstuck; unfold turn_on_display, display_update.
  rewrite (seq_Ok _ _ d (framed 1 [0xF7] (framed 0 [0x22] d)))
    by (repeat send_step HW).
  send_step HW. apply wait_until_idle_stuck; exact Hstuck.
Qed.

Lemma display_stuck W fuel image d :
  transport_ok W -> (forall n, busy_line W n = true) ->
  Forall (fun b => 0 <= b <= 255) image ->
  display W fuel image d = OutOfFuel.
Proof.
  intros HW Hstuck Himg; unfold display.
  rewrite (seq_Ok _ _ _ _ (set_cursor_ok W HW 0 0 d)).
  repeat send_step HW.
  apply turn_on_display_stuck; assumption.
Qed.

(** X5. On a busy line that stays at 1 every method that waits for idle
    hangs, even with a transport that works and well-formed arguments:
    [hw_reset], [sw_reset], [init], [display], [turn_on_display], [clear]
    and [wait_until_idle] do not come back, whatever the fuel. The driver
    has no timeout of its own anywhere. *)
Theorem waiting_methods_hang_on_stuck_busy_line
  (W : world) (fuel : nat) (m : any_method) (d : EPaperDisplay) :
  transport_ok W -> (forall n, busy_line W n = true) ->
  polls_busy m = true -> byte_args m = true ->
  invoke W fuel m d = OutOfFuel.
Proof.
  intros HW Hstuck Hm Hargs.
  destruct m as [[] | | | | | | | |]; simpl in *; try discriminate.
  - rewrite hw_reset_pulses; apply wait_until_idle_stuck; exact Hstuck.
  - unfold sw_reset. send_step HW. unfold seq, sleep_ms.
    apply wait_until_idle_stuck; exact Hstuck.
  - unfold init; apply seq_out_of_fuel.
    rewrite hw_reset_pulses; apply wait_until_idle_stuck; exact Hstuck.
  - apply display_stuck; try assumption; apply forallb_is_byte; exact Hargs.
  - apply turn_on_display_stuck; assumption.
  - unfold clear; apply display_stuck; try assumption.
    unfold clear_buffer; apply Forall_repeat, is_byte_iff; exact Hargs.
  - apply wait_until_idle_stuck; exact Hstuck.
Qed.

Lemma waiting_methods_hang_on_stuck_busy_line_witness :
  transport_ok stuck /\ (forall n, busy_line stuck n = true) /\
  polls_busy (Public Init) = true /\ byte_args (Public Init) = true /\
  invoke stuck 1000 (Public Init) new_display = OutOfFuel.
Proof.
  assert (HW : transport_ok stuck) by (intros n; reflexivity).
  assert (Hs : forall n, busy_line stuck n = true) by (intros n; reflexivity).
  split; [exact HW|]; split; [exact Hs|]; split; [reflexivity|]; split; [reflexivity|].
  exact (waiting_methods_hang_on_stuck_busy_line stuck 1000 (Public Init) new_display
           HW Hs eq_refl eq_refl).
Defined.

Lemma seq_Raise (a b : action) d e d' :
  a d = Raise e d' -> (a ;; b) d = Raise e d'.
Proof. unfold seq; intros ->; reflexivity. Qed.

(** ** Reset *)

(** X6. [hw_reset] never touches the SPI bus: on any transport, working
    or not, once the busy line reads idle it returns, having driven the
    reset line to 1, 0, 1 with 200 microseconds after each level and then
    polled; the reset line is left at 1, the other lines and the count of
    SPI calls are as before, and it raises nothing. *)
Theorem hw_reset_pulses_reset_line_only
  (W : world) (d : EPaperDisplay) (n fuel : nat) :
  first_idle W (busy_reads d) n -> (n < fuel)%nat ->
  exists d',
    hw_reset W fuel d = Ok d' /\
    trace d'
    = trace d
      ++ [PinWrite RST 1; SleepUs 200; PinWrite RST 0; SleepUs 200;
          PinWrite RST 1; SleepUs 200;
          Print "e-Paper: waiting for display to be ready..."]
      ++ poll_trace n ++ [BusyRead 0; Print "e-Paper: display ready"] /\
    rst d' = 1 /\ dc d' = dc d /\ cs d' = cs d /\
    spi_calls d' = spi_calls d /\
    bus_frames (trace d') = bus_frames (trace d).
Proof.
  intros Hfirst Hfuel; exists (waited n (hw_reset_pulsed d)).
  split; [apply hw_reset_ok; assumption|].
  split; [rewrite trace_waited; simpl; rewrite <- !app_assoc; reflexivity|].
  repeat (split; [reflexivity|]).
  rewrite frames_waited; apply frames_hw_reset_pulsed.
Qed.

Lemma hw_reset_pulses_reset_line_only_witness :
  first_idle (mkWorld (fun _ => true) (fun k => (k <? 2)%nat))
             (busy_reads new_display) 2 /\
  (2 < 3)%nat /\
  exists d',
    hw_reset (mkWorld (fun _ => true) (fun k => (k <? 2)%nat)) 3 new_display = Ok d' /\
    rst d' = 1 /\ spi_calls d' = 0%nat.
Proof.
  assert (Hfirst : first_idle (mkWorld (fun _ => true) (fun k => (k <? 2)%nat))
                              (busy_reads new_display) 2).
  { split; [reflexivity|]. intros i Hi; simpl. apply Nat.ltb_lt; exact Hi. }
  split; [exact Hfirst|]; split; [lia|].
  destruct (hw_reset_pulses_reset_line_only _ new_display 2 3 Hfirst ltac:(lia))
    as (d' & Hrun & _ & Hrst & _ & _ & Hcalls & _).
  exists d'; split; [exact Hrun|]; split; [exact Hrst | exact Hcalls].
Defined.

(** X7. [sw_reset] sends command 0x12 and only then waits: when the write
    of the command fails, the transport's error leaves the method before
    the 10 ms settle delay and before any read of the busy line; when it
    goes through, the 10 ms delay comes first and the polling after it. *)
Theorem sw_reset_sends_then_settles_then_polls
  (W : world) (d : EPaperDisplay) (n fuel : nat) :
  (spi_fails W (spi_calls d) = true ->
   exists d',
     sw_reset W fuel d = Raise TransportError d' /\
     trace d' = trace d ++ [PinWrite DC 0; PinWrite CS 0] /\
     busy_reads d' = busy_reads d)
  /\ (spi_fails W (spi_calls d) = false ->
      first_idle W (busy_reads d) n -> (n < fuel)%nat ->
      exists d',
        sw_reset W fuel d = Ok d' /\
        trace d'
        = trace d
          ++ [PinWrite DC 0; PinWrite CS 0; SpiWrite 0 0 [0x12]; PinWrite CS 1;
              SleepMs 10;
              Print "e-Paper: waiting for display to be ready..."]
          ++ poll_trace n ++ [BusyRead 0; Print "e-Paper: display ready"]).
Proof.
  split.
  - intros Hf; unfold sw_reset, send_command, spi_write_bytes.
    rewrite (bytes_one 0x12 eq_refl).
    destruct (framed_write_exits W 0 [0x12] d) as [[Hs _] | [_ Hrun]]; [congruence|].
    eexists; split; [apply seq_Raise; exact Hrun|]; split; reflexivity.
  - intros Hf Hfirst Hfuel.
    exists (waited n (emit (SleepMs 10) (framed 0 [0x12] d))); split.
    + unfold sw_reset.
      rewrite (seq_Ok _ _ d (framed 0 [0x12] d))
        by (apply send_command_ok; [exact Hf | reflexivity]).
      unfold seq, sleep_ms. apply wait_until_idle_ok; assumption.
    + rewrite trace_waited; simpl; rewrite <- !app_assoc; reflexivity.
Qed.

Lemma sw_reset_sends_then_settles_then_polls_witness :
  spi_fails (failing_at 0) (spi_calls new_display) = true /\
  exists d',
    sw_reset (failing_at 0) 5 new_display = Raise TransportError d' /\
    trace d' = [PinWrite DC 0; PinWrite CS 0] /\
    busy_reads d' = 0%nat.
Proof.
  split; [reflexivity|].
  destruct (sw_reset_sends_then_settles_then_polls (failing_at 0) new_display 0 5)
    as [Hfail _].
  exact (Hfail eq_refl).
Defined.

(** ** Arguments that are not bytes *)

Lemma bytes_one_bad b : is_byte b = false -> bytes [b] = None.
Proof. unfold bytes; simpl; intros ->; reflexivity. Qed.

Lemma send_data_bad W b d :
  is_byte b = false ->
  send_data W b d
  = Raise ValueError
      (mkDisplay (rst d) 1 0 (width d) (height d)
                 (trace d ++ [PinWrite DC 1; PinWrite CS 0])
                 (spi_calls d) (busy_reads d)).
Proof.
  intros Hb; unfold send_data.
  destruct (send_exits W 1 [b] d) as [[_ Hrun] | [(Hs & _) | (Hs & _)]];
    [exact Hrun | |]; rewrite (bytes_one_bad _ Hb) in Hs; discriminate.
Qed.

(** X8. The optional argument of [set_border] and of
    [set_ram_data_entry_mode] is checked only by [bytes(...)], after the
    command has gone out: with a value outside 0..255 the opcode (0x3C,
    0x11) is sent, then [ValueError] is raised before any data byte, with
    data/command at 1 and chip-select left at 0. *)
Theorem bad_argument_is_rejected_after_the_opcode
  (W : world) (d : EPaperDisplay) (v : Z) :
  is_byte v = false -> spi_fails W (spi_calls d) = false ->
  exists db dm,
    set_border W (Some v) d = Raise ValueError db /\
    bus_frames (trace db) = bus_frames (trace d) ++ [Cmd [0x3C]] /\
    cs db = 0 /\ dc db = 1 /\ spi_calls db = S (spi_calls d) /\
    set_ram_data_entry_mode W (Some v) d = Raise ValueError dm /\
    bus_frames (trace dm) = bus_frames (trace d) ++ [Cmd [0x11]] /\
    cs dm = 0 /\ dc dm = 1 /\ spi_calls dm = S (spi_calls d).
Proof.
  intros Hv Hs; do 2 eexists.
  split.
  { unfold set_border.
    rewrite (seq_Ok _ _ d (framed 0 [0x3C] d))
      by (apply send_command_ok; [exact Hs | reflexivity]).
    apply send_data_bad; exact Hv. }
  split; [simpl; rewrite !bus_frames_app; simpl; rewrite app_nil_r; reflexivity|].
  do 3 (split; [reflexivity|]).
  split.
  { unfold set_ram_data_entry_mode.
    rewrite (seq_Ok _ _ d (framed 0 [0x11] d))
      by (apply send_command_ok; [exact Hs | reflexivity]).
    apply send_data_bad; exact Hv. }
  split; [simpl; rewrite !bus_frames_app; simpl; rewrite app_nil_r; reflexivity|].
  repeat split.
Qed.

Lemma bad_argument_is_rejected_after_the_opcode_witness :
  is_byte 0x100 = false /\ spi_fails calm (spi_calls new_display) = false /\
  exists db,
    set_border calm (Some 0x100) new_display = Raise ValueError db /\
    bus_frames (trace db) = [Cmd [0x3C]] /\ cs db = 0.
Proof.
  split; [reflexivity|]; split; [reflexivity|].
  destruct (bad_argument_is_rejected_after_the_opcode calm new_display 0x100
              eq_refl eq_refl) as (db & _ & Hrun & Hfr & Hcs & _).
  exists db; split; [exact Hrun|]; split; [exact Hfr | exact Hcs].
Defined.

Lemma bytes_bad l : forallb is_byte l = false -> bytes l = None.
Proof. unfold bytes; intros ->; reflexivity. Qed.

Lemma send_bytes_bad W data d :
  forallb is_byte data = false ->
  send_bytes W data d
  = Raise ValueError
      (mkDisplay (rst d) 1 0 (width d) (height d)
                 (trace d ++ [PinWrite DC 1; PinWrite CS 0])
                 (spi_calls d) (busy_reads d)).
Proof.
  intros Hb; unfold send_bytes.
  destruct (send_exits W 1 data d) as [[_ Hrun] | [(Hs & _) | (Hs & _)]];
    [exact Hrun | |]; rewrite (bytes_bad _ Hb) in Hs; discriminate.
Qed.

(** X9. [display] finds an element outside 0..255 only when it builds the
    burst: the cursor and opcode 0x24 have been sent by then. It raises
    [ValueError] with nothing of the image written, chip-select at 0, no
    refresh and no read of the busy line, so the panel is left inside an
    open RAM write. *)
Theorem display_rejects_non_byte_after_write_ram
  (W : world) (fuel : nat) (image : list Z) (d : EPaperDisplay) :
  transport_ok W -> forallb is_byte image = false ->
  exists d',
    display W fuel image d = Raise ValueError d' /\
    bus_frames (trace d')
    = bus_frames (trace d)
      ++ [Cmd [0x4E]; Dat [0x00]; Cmd [0x4F]; Dat [0x00]; Dat [0x00]; Cmd [0x24]] /\
    cs d' = 0 /\ busy_reads d' = busy_reads d.
Proof.
  intros HW Himg; eexists; split.
  - unfold display.
    rewrite (seq_Ok _ _ _ _ (set_cursor_ok W HW 0 0 d)).
    send_step HW.
    apply seq_Raise, send_bytes_bad; exact Himg.
  - split; [|split; reflexivity].
    cbn [trace]; rewrite bus_frames_app; simpl (bus_frames [_; _]).
    rewrite app_nil_r; frames; reflexivity.
Qed.

Lemma display_rejects_non_byte_after_write_ram_witness :
  transport_ok calm /\ forallb is_byte [0x00; 0x1FF; 0x00] = false /\
  exists d',
    display calm 0 [0x00; 0x1FF; 0x00] new_display = Raise ValueError d' /\
    cs d' = 0 /\ busy_reads d' = 0%nat.
Proof.
  split; [exact calm_transport_ok|]; split; [reflexivity|].
  destruct (display_rejects_non_byte_after_write_ram calm 0 [0x00; 0x1FF; 0x00]
              new_display calm_transport_ok eq_refl) as (d' & Hrun & _ & Hcs & Hb).
  exists d'; split; [exact Hrun|]; split; [exact Hcs | exact Hb].
Defined.

(** ** The size of the buffer of [clear] *)




(** ** The upload handler *)



(** * connect_wifi *)

Example connect_wifi_already_up :
  connect_wifi (link_up_from 0) "Casa" "secret"
  = (true,
     mkWifi [WlanActive true;
             WifiPrint "WiFi connected successfully";
             WifiPrintConfig "Network config:"
               ("192.168.1.7", "255.255.255.0", "192.168.1.1", "8.8.8.8")%string] 2).
Proof. reflexivity. Qed.

Example connect_wifi_up_at_third_call :
  connect_wifi (link_up_from 3) "Casa" "secret"
  = (true,
     mkWifi [WlanActive true;
             WifiPrint "Connecting to WiFi network: Casa...";
             WlanConnect "Casa" "secret";
             WifiPrint "Waiting for connection..."; WifiSleep 1;
             WifiPrint "Waiting for connection..."; WifiSleep 1;
             WifiPrint "WiFi connected successfully";
             WifiPrintConfig "Network config:"
               ("192.168.1.7", "255.255.255.0", "192.168.1.1", "8.8.8.8")%string] 5).
Proof. reflexivity. Qed.

Lemma seconds_slept_app l1 l2 :
  seconds_slept (l1 ++ l2) = seconds_slept l1 + seconds_slept l2.
Proof.
  induction l1 as [|e l1 IH]; simpl; [reflexivity|].
  destruct e; rewrite ?IH; lia.
Qed.

Lemma connect_calls_app l1 l2 :
  connect_calls (l1 ++ l2) = (connect_calls l1 + connect_calls l2)%nat.
Proof.
  induction l1 as [|e l1 IH]; simpl; [reflexivity|].
  destruct e; rewrite ?IH; reflexivity.
Qed.

(** The loop, from any state: it stops at the first call that answers
    true, [j] calls ahead at most [max_wait] - 1, after [j] sleeps; or all
    [max_wait] calls answered false and it slept [max_wait] times. *)
Lemma connect_wait_cases N max_wait : forall s,
  (exists j, (j < max_wait)%nat /\
     isconnected_at N (isconnected_calls s + j) = true /\
     (forall i, (i < j)%nat -> isconnected_at N (isconnected_calls s + i) = false) /\
     isconnected_calls (connect_wait N max_wait s) = (isconnected_calls s + j + 1)%nat /\
     seconds_slept (wifi_log (connect_wait N max_wait s))
     = seconds_slept (wifi_log s) + Z.of_nat j /\
     connect_calls (wifi_log (connect_wait N max_wait s)) = connect_calls (wifi_log s))
  \/ ((forall i, (i < max_wait)%nat ->
         isconnected_at N (isconnected_calls s + i) = false) /\
      isconnected_calls (connect_wait N max_wait s)
      = (isconnected_calls s + max_wait)%nat /\
      seconds_slept (wifi_log (connect_wait N max_wait s))
      = seconds_slept (wifi_log s) + Z.of_nat max_wait /\
      connect_calls (wifi_log (connect_wait N max_wait s)) = connect_calls (wifi_log s)).
Proof.
  induction max_wait as [|m IH]; intros s.
  - right; simpl; split; [intros i Hi; lia|].
    split; [lia|]; split; [lia | reflexivity].
  - simpl; destruct (isconnected_at N (isconnected_calls s)) eqn:E.
    + left; exists O; simpl.
      split; [lia|]; split; [rewrite Nat.add_0_r; exact E|].
      split; [intros i Hi; lia|].
      split; [lia|]; split; [lia | reflexivity].
    + pose (s' := wifi_do (WifiSleep 1)
                    (wifi_do (WifiPrint "Waiting for connection...")
                       (mkWifi (wifi_log s) (S (isconnected_calls s))))).
      assert (Hsl : seconds_slept (wifi_log s') = seconds_slept (wifi_log s) + 1)
        by (unfold s'; simpl; rewrite <- app_assoc, seconds_slept_app; simpl; lia).
      assert (Hcc : connect_calls (wifi_log s') = connect_calls (wifi_log s))
        by (unfold s'; simpl; rewrite <- app_assoc, connect_calls_app; simpl; lia).
      assert (Hn : isconnected_calls s' = S (isconnected_calls s)) by reflexivity.
      fold s'.
      destruct (IH s') as [(j & Hj & Hup & Hdown & Hq & Hs & Hc) | (Hdown & Hq & Hs & Hc)];
        rewrite Hn in *.
      * left; exists (S j).
        split; [lia|]; split; [rewrite Nat.add_succ_r; exact Hup|].
        split.
        { intros [|i] Hi; [rewrite Nat.add_0_r; exact E|].
          rewrite Nat.add_succ_r; apply Hdown; lia. }
        split; [lia|]; split; [rewrite Hs, Hsl; lia | rewrite Hc; exact Hcc].
      * right; split.
        { intros [|i] Hi; [rewrite Nat.add_0_r; exact E|].
          rewrite Nat.add_succ_r; apply Hdown; lia. }
        split; [lia|]; split; [rewrite Hs, Hsl; lia | rewrite Hc; exact Hcc].
Qed.


(** The state in which [connect_wifi] makes its last call of
    [isconnected]. *)
Lemma connect_wifi_last_call N ssid password :
  let s2 :=
    if isconnected_at N 0 then mkWifi [WlanActive true] 1
    else connect_wait N 10
           (wifi_do (WlanConnect ssid password)
              (wifi_do (WifiPrint ("Connecting to WiFi network: " ++ ssid ++ "..."))
                 (mkWifi [WlanActive true] 1))) in
  fst (connect_wifi N ssid password) = isconnected_at N (isconnected_calls s2) /\
  isconnected_calls (snd (connect_wifi N ssid password)) = S (isconnected_calls s2) /\
  seconds_slept (wifi_log (snd (connect_wifi N ssid password)))
  = seconds_slept (wifi_log s2) /\
  connect_calls (wifi_log (snd (connect_wifi N ssid password)))
  = connect_calls (wifi_log s2).
Proof.
  unfold connect_wifi, isconnected; cbn [wifi_do wifi_log isconnected_calls app].
  destruct (isconnected_at N 0); cbn [negb].
  - cbn [isconnected_calls wifi_log].
    destruct (isconnected_at N 1); simpl; repeat split.
  - set (s2 := connect_wait N 10 _).
    destruct (isconnected_at N (isconnected_calls s2)); cbn [fst snd wifi_do wifi_log isconnected_calls];
      rewrite <- ?app_assoc, ?seconds_slept_app, ?connect_calls_app; simpl;
      repeat split; lia.
Qed.

(** X12. [connect_wifi] always comes back, after at most 10 sleeps of one
    second: it calls [wlan.connect] once if the first [isconnected] check
    fails and not at all otherwise, makes between 2 and 12 checks, and its
    result is the answer of the last check it made. *)
Theorem connect_wifi_waits_at_most_ten_seconds
  (N : wlan_world) (ssid password : string) :
  0 <= seconds_slept (wifi_log (snd (connect_wifi N ssid password))) <= 10 /\
  (2 <= isconnected_calls (snd (connect_wifi N ssid password)) <= 12)%nat /\
  connect_calls (wifi_log (snd (connect_wifi N ssid password)))
  = (if isconnected_at N 0 then 0 else 1)%nat /\
  fst (connect_wifi N ssid password)
  = isconnected_at N (isconnected_calls (snd (connect_wifi N ssid password)) - 1).
Proof.
  destruct (connect_wifi_last_call N ssid password) as (Hr & Hq & Hs & Hc).
  rewrite Hr, Hq, Hs, Hc; clear Hr Hq Hs Hc.
  destruct (isconnected_at N 0).
  - simpl; repeat split; try lia.
  - set (s1 := wifi_do (WlanConnect ssid password) _).
    assert (Hs1 : seconds_slept (wifi_log s1) = 0) by reflexivity.
    assert (Hc1 : connect_calls (wifi_log s1) = 1%nat) by reflexivity.
    assert (Hq1 : isconnected_calls s1 = 1%nat) by reflexivity.
    destruct (connect_wait_cases N 10 s1)
      as [(j & Hj & _ & _ & Hq & Hs & Hc) | (_ & Hq & Hs & Hc)];
      rewrite Hq, Hs, Hc, Hs1, Hc1, Hq1;
      (split; [lia|]); (split; [lia|]); (split; [reflexivity|]);
      f_equal; lia.
Qed.

(** X13. What [connect_wifi] does, by when the link comes up. Already up
    at the first check: no [connect], no sleep, and the result is the
    second check. Down at first and first seen up at the [k]-th check
    after [connect], 1 <= k <= 10: it slept k - 1 seconds and the result
    is the check after that one, so a link that drops again in between
    gives [False]. Never seen up in the ten checks of the loop: it slept
    10 seconds and the result is one more check, the twelfth. *)
Theorem connect_wifi_result_by_link_state
  (N : wlan_world) (ssid password : string) :
  (isconnected_at N 0 = true ->
   fst (connect_wifi N ssid password) = isconnected_at N 1 /\
   seconds_slept (wifi_log (snd (connect_wifi N ssid password))) = 0 /\
   connect_calls (wifi_log (snd (connect_wifi N ssid password))) = 0%nat)
  /\ (forall k,
        isconnected_at N 0 = false -> (1 <= k <= 10)%nat ->
        isconnected_at N k = true ->
        (forall i, (1 <= i < k)%nat -> isconnected_at N i = false) ->
        fst (connect_wifi N ssid password) = isconnected_at N (k + 1) /\
        seconds_slept (wifi_log (snd (connect_wifi N ssid password)))
        = Z.of_nat k - 1 /\
        isconnected_calls (snd (connect_wifi N ssid password)) = (k + 2)%nat)
  /\ ((forall i, (i <= 10)%nat -> isconnected_at N i = false) ->
      fst (connect_wifi N ssid password) = isconnected_at N 11 /\
      seconds_slept (wifi_log (snd (connect_wifi N ssid password))) = 10 /\
      isconnected_calls (snd (connect_wifi N ssid password)) = 12%nat).
Proof.
  destruct (connect_wifi_last_call N ssid password) as (Hr & Hq & Hs & Hc).
  rewrite Hr, Hq, Hs, Hc; clear Hr Hq Hs Hc.
  split; [|split].
  - intros ->; repeat split.
  - intros k H0 Hk Hup Hdown; rewrite H0.
    set (s1 := wifi_do (WlanConnect ssid password) _).
    assert (Hs1 : seconds_slept (wifi_log s1) = 0) by reflexivity.
    assert (Hq1 : isconnected_calls s1 = 1%nat) by reflexivity.
    destruct (connect_wait_cases N 10 s1)
      as [(j & Hj & Hjup & Hjdown & Hq & Hs & _) | (Hall & _)];
      rewrite Hq1 in *.
    + assert (Hkj : k = S j).
      { destruct (Nat.lt_trichotomy k (S j)) as [Hlt | [Heq | Hgt]]; [|exact Heq|].
        - specialize (Hjdown (k - 1)%nat ltac:(lia)).
          replace (1 + (k - 1))%nat with k in Hjdown by lia; congruence.
        - specialize (Hdown (S j) ltac:(lia)).
          change (1 + j)%nat with (S j) in Hjup; congruence. }
      rewrite Hq, Hs, Hs1; subst k.
      split; [f_equal; lia|]; split; lia.
    + specialize (Hall (k - 1)%nat ltac:(lia)).
      replace (1 + (k - 1))%nat with k in Hall by lia; congruence.
  - intros Hdown; rewrite (Hdown O ltac:(lia)).
    set (s1 := wifi_do (WlanConnect ssid password) _).
    assert (Hs1 : seconds_slept (wifi_log s1) = 0) by reflexivity.
    assert (Hq1 : isconnected_calls s1 = 1%nat) by reflexivity.
    destruct (connect_wait_cases N 10 s1)
      as [(j & Hj & Hjup & _) | (_ & Hq & Hs & _)];
      rewrite Hq1 in *.
    + rewrite (Hdown (1 + j)%nat ltac:(lia)) in Hjup; discriminate.
    + rewrite Hq, Hs, Hs1; repeat split.
Qed.

Lemma connect_wifi_result_by_link_state_witness :
  isconnected_at (link_up_from 4) 0 = false /\ (1 <= 4 <= 10)%nat /\
  isconnected_at (link_up_from 4) 4 = true /\
  fst (connect_wifi (link_up_from 4) "Casa" "secret") = true /\
  seconds_slept (wifi_log (snd (connect_wifi (link_up_from 4) "Casa" "secret"))) = 3.
Proof.
  split; [reflexivity|]; split; [lia|]; split; [reflexivity|].
  destruct (connect_wifi_result_by_link_state (link_up_from 4) "Casa" "secret")
    as (_ & Hk & _).
  assert (Hdown : forall i, (1 <= i < 4)%nat -> isconnected_at (link_up_from 4) i = false).
  { intros i Hi; change (isconnected_at (link_up_from 4) i) with (4 <=? i)%nat.
    apply Nat.leb_gt; lia. }
  destruct (Hk 4%nat eq_refl ltac:(lia) eq_refl Hdown) as (Hr & Hs & _).
  split; [rewrite Hr; reflexivity | rewrite Hs; reflexivity].
Defined.

Example connect_wifi_never_up :
  fst (connect_wifi link_down "Casa" "secret") = false /\
  seconds_slept (wifi_log (snd (connect_wifi link_down "Casa" "secret"))) = 10 /\
  isconnected_calls (snd (connect_wifi link_down "Casa" "secret")) = 12%nat.
Proof. repeat split. Qed.

Example connect_wifi_up_during_last_sleep :
  fst (connect_wifi (link_up_from 11) "Casa" "secret") = true /\
  seconds_slept (wifi_log (snd (connect_wifi (link_up_from 11) "Casa" "secret"))) = 10.
Proof. repeat split. Qed.

(** * Bit packing *)

Example binary_linewidth_16 : binary_linewidth = 16.
Proof. reflexivity. Qed.

Example pack_three_pixels :
  firstn 2 (pack_pixels [200; 0; 0; 255; 10; 0; 0; 255; 129; 0; 0; 255]
              [(0, 0); (0, 1); (0, 2)] (repeat 0 4))
  = [0xA0; 0].
Proof. reflexivity. Qed.

Lemma update_length n v l : List.length (update n v l) = List.length l.
Proof.
  revert n; induction l as [|x l IH]; intros [|n]; simpl; auto.
Qed.

Lemma nth_update n v l j :
  (n < List.length l)%nat ->
  nth j (update n v l) 0 = if (j =? n)%nat then v else nth j l 0.
Proof.
  revert n j; induction l as [|x l IH]; intros n j Hn; simpl in Hn; [lia|].
  destruct n as [|n], j as [|j]; simpl; try reflexivity.
  apply IH; lia.
Qed.

Lemma typed_set_length a i v : List.length (typed_set a i v) = List.length a.
Proof.
  unfold typed_set; destruct (_ && _); [apply update_length | reflexivity].
Qed.

Lemma typed_get_in_range a i :
  0 <= i < Z.of_nat (List.length a) ->
  typed_get a i = Some (nth (Z.to_nat i) a 0).
Proof.
  intros Hi; unfold typed_get.
  replace ((0 <=? i) && (i <? Z.of_nat (List.length a))) with true
    by (symmetry; apply andb_true_iff; split; [apply Z.leb_le | apply Z.ltb_lt]; lia).
  apply nth_error_nth'; lia.
Qed.

Lemma range_In n x : In x (range n) <-> 0 <= x < n.
Proof.
  unfold range; rewrite in_map_iff; split.
  - intros (k & <- & Hk); apply in_seq in Hk; lia.
  - intros Hx; exists (Z.to_nat x); split; [lia | apply in_seq; lia].
Qed.

Lemma pixels_In y x :
  In (y, x) pixels <-> 0 <= y < EPAPER_HEIGHT /\ 0 <= x < EPAPER_WIDTH.
Proof.
  unfold pixels; rewrite in_flat_map; split.
  - intros (y' & Hy & Hin); apply in_map_iff in Hin as (x' & Heq & Hx).
    injection Heq as -> ->; split; apply range_In; assumption.
  - intros [Hy Hx]; exists y; split; [apply range_In; exact Hy|].
    apply in_map, range_In; exact Hx.
Qed.

Lemma nested_fold_left (f : list Z -> Z -> Z -> list Z) (xs ys : list Z) : forall b,
  fold_left (fun b y => fold_left (fun b x => f b y x) xs b) ys b
  = fold_left (fun b p => f b (fst p) (snd p))
              (flat_map (fun y => map (pair y) xs) ys) b.
Proof.
  induction ys as [|y ys IH]; intros b; [reflexivity|].
  cbn [flat_map fold_left]; rewrite fold_left_app, <- IH; f_equal.
  clear IH; revert b; induction xs as [|x xs IHx]; intros b; [reflexivity|].
  cbn [map fold_left fst snd]; apply IHx.
Qed.

(** The two nested loops are the loop body folded over [pixels]. *)
Lemma pack_image_pixels finalData :
  pack_image finalData
  = pack_pixels finalData pixels (repeat 0 (Z.to_nat (binary_linewidth * EPAPER_HEIGHT))).
Proof.
  unfold pack_image, pack_row, pixels, pack_pixels.
  apply (nested_fold_left (fun b y x => pack_pixel finalData b y x)).
Qed.

Lemma pack_pixel_length finalData b y x :
  List.length (pack_pixel finalData b y x) = List.length b.
Proof.
  unfold pack_pixel; destruct (is_black _ _ _); [apply typed_set_length | reflexivity].
Qed.

Lemma pack_pixels_length finalData ps : forall b,
  List.length (pack_pixels finalData ps b) = List.length b.
Proof.
  induction ps as [|p ps IH]; intros b; simpl; [reflexivity|].
  unfold pack_pixels in *; simpl; rewrite IH; apply pack_pixel_length.
Qed.


Lemma update_small n v l :
  0 <= v < 256 -> Forall (fun b => 0 <= b < 256) l ->
  Forall (fun b => 0 <= b < 256) (update n v l).
Proof.
  intros Hv; revert n; induction l as [|x l IH]; intros n Hl.
  - destruct n; simpl; constructor.
  - inversion Hl; subst; destruct n; simpl; constructor; auto.
Qed.

Lemma pack_pixel_small finalData b y x :
  Forall (fun v => 0 <= v < 256) b ->
  Forall (fun v => 0 <= v < 256) (pack_pixel finalData b y x).
Proof.
  intros Hb; unfold pack_pixel, typed_set.
  destruct (is_black _ _ _); [|exact Hb].
  destruct (_ && _); [|exact Hb].
  apply update_small; [apply Z.mod_pos_bound; lia | exact Hb].
Qed.

Lemma pack_pixels_small finalData ps : forall b,
  Forall (fun v => 0 <= v < 256) b ->
  Forall (fun v => 0 <= v < 256) (pack_pixels finalData ps b).
Proof.
  induction ps as [|p ps IH]; intros b Hb; [exact Hb|].
  apply IH, pack_pixel_small, Hb.
Qed.

Lemma byte_index_in_range y x :
  0 <= y < EPAPER_HEIGHT -> 0 <= x < EPAPER_WIDTH ->
  0 <= y * 16 + x / 8 < 4000 /\ 0 <= x / 8 <= 15 /\ 0 <= x mod 8 < 8 /\
  x = 8 * (x / 8) + x mod 8.
Proof.
  unfold EPAPER_HEIGHT, EPAPER_WIDTH; intros Hy Hx.
  pose proof (Z.div_mod x 8 ltac:(lia)) as Hdm.
  pose proof (Z.mod_pos_bound x 8 ltac:(lia)) as Hm.
  lia.
Qed.

(** One pass of the loop body sets the bit of its pixel when the pixel
    is black and changes no other bit. *)
Lemma pack_pixel_bit finalData b y x j c :
  0 <= y < EPAPER_HEIGHT -> 0 <= x < EPAPER_WIDTH ->
  List.length b = 4000%nat -> 0 <= c < 8 ->
  Z.testbit (nth j (pack_pixel finalData b y x) 0) c
  = Z.testbit (nth j b 0) c
    || ((j =? Z.to_nat (y * 16 + x / 8))%nat && (c =? 7 - x mod 8)
        && is_black finalData y x).
Proof.
  intros Hy Hx Hlen Hc.
  destruct (byte_index_in_range y x Hy Hx) as (Hidx & Hq & Hr & _).
  unfold pack_pixel; change binary_linewidth with 16.
  rewrite Z.rem_mod_nonneg by lia.
  destruct (is_black finalData y x); [|rewrite andb_false_r, orb_false_r; reflexivity].
  rewrite andb_true_r.
  assert (Hin : 0 <= y * 16 + x / 8 < Z.of_nat (List.length b)) by (rewrite Hlen; lia).
  unfold typed_set.
  replace ((0 <=? y * 16 + x / 8) && (y * 16 + x / 8 <? Z.of_nat (List.length b)))
    with true
    by (symmetry; apply andb_true_iff; split; [apply Z.leb_le | apply Z.ltb_lt]; lia).
  rewrite nth_update by lia.
  destruct (j =? Z.to_nat (y * 16 + x / 8))%nat eqn:Ej.
  - apply Nat.eqb_eq in Ej; subst j; simpl andb.
    rewrite (typed_get_in_range _ _ Hin); simpl to_int.
    change 256 with (2 ^ 8); rewrite Z.mod_pow2_bits_low by lia.
    rewrite Z.lor_spec, Z.shiftl_1_l, Z.pow2_bits_eqb by lia.
    f_equal; apply Z.eqb_sym.
  - simpl; rewrite orb_false_r; reflexivity.
Qed.

Lemma pack_pixels_bit finalData ps : forall b j c,
  Forall (fun p => 0 <= fst p < EPAPER_HEIGHT /\ 0 <= snd p < EPAPER_WIDTH) ps ->
  List.length b = 4000%nat -> 0 <= c < 8 ->
  Z.testbit (nth j (pack_pixels finalData ps b) 0) c
  = Z.testbit (nth j b 0) c
    || existsb (fun p => (j =? Z.to_nat (fst p * 16 + snd p / 8))%nat
                         && (c =? 7 - snd p mod 8)
                         && is_black finalData (fst p) (snd p)) ps.
Proof.
  induction ps as [|p ps IH]; intros b j c Hps Hlen Hc.
  - simpl; rewrite orb_false_r; reflexivity.
  - inversion Hps as [|p' ps' [Hy Hx] Hrest]; subst.
    change (pack_pixels finalData (p :: ps) b)
      with (pack_pixels finalData ps (pack_pixel finalData b (fst p) (snd p))).
    rewrite IH by (try assumption; rewrite pack_pixel_length; exact Hlen).
    rewrite (pack_pixel_bit finalData b (fst p) (snd p) j c Hy Hx Hlen Hc).
    simpl existsb; rewrite orb_assoc; reflexivity.
Qed.

Lemma pixels_in_range :
  Forall (fun p => 0 <= fst p < EPAPER_HEIGHT /\ 0 <= snd p < EPAPER_WIDTH) pixels.
Proof.
  apply Forall_forall; intros [y x] Hin; apply pixels_In in Hin; exact Hin.
Qed.

Lemma blank_buffer_length :
  List.length (repeat 0 (Z.to_nat (binary_linewidth * EPAPER_HEIGHT))) = 4000%nat.
Proof. rewrite repeat_length; reflexivity. Qed.

Lemma blank_buffer_bit j c :
  Z.testbit (nth j (repeat 0 (Z.to_nat (binary_linewidth * EPAPER_HEIGHT))) 0) c = false.
Proof.
  replace (nth j (repeat 0 (Z.to_nat (binary_linewidth * EPAPER_HEIGHT))) 0) with 0.
  - apply Z.testbit_0_l.
  - symmetry; generalize (Z.to_nat (binary_linewidth * EPAPER_HEIGHT)); intros n.
    revert j; induction n; intros [|j]; simpl; auto.
Qed.

(** Bit [c] of byte [j] of the packed image is set exactly when some
    black pixel of the canvas maps to it. *)
Lemma pack_image_bit finalData j c :
  0 <= c < 8 ->
  Z.testbit (nth j (pack_image finalData) 0) c
  = existsb (fun p => (j =? Z.to_nat (fst p * 16 + snd p / 8))%nat
                      && (c =? 7 - snd p mod 8)
                      && is_black finalData (fst p) (snd p)) pixels.
Proof.
  intros Hc; rewrite pack_image_pixels.
  rewrite (pack_pixels_bit finalData pixels _ j c pixels_in_range blank_buffer_length Hc).
  rewrite blank_buffer_bit; reflexivity.
Qed.

(** X14. The packing loop of [processImage] is exact: for every pixel
    (x, y) of the 122 x 250 canvas, the bit at byte y * 16 + x / 8,
    position 7 - x mod 8 (most significant bit first) of the packed
    image is 1 if and only if the red channel of that pixel is greater
    than 128. No pixel disturbs the bit of another. *)
Theorem pack_image_bit_is_pixel (finalData : list Z) (x y : Z) :
  0 <= x < EPAPER_WIDTH -> 0 <= y < EPAPER_HEIGHT ->
  packed_bit (pack_image finalData) y x = is_black finalData y x.
Proof.
  intros Hx Hy; unfold packed_bit.
  destruct (byte_index_in_range y x Hy Hx) as (Hidx & Hq & Hr & Hdm).
  rewrite pack_image_bit by lia.
  destruct (is_black finalData y x) eqn:Eb.
  - apply existsb_exists; exists (y, x); split; [apply pixels_In; split; assumption|].
    cbn [fst snd]; rewrite Eb, Nat.eqb_refl, Z.eqb_refl; reflexivity.
  - apply not_true_is_false; intros Hex.
    apply existsb_exists in Hex as ([y' x'] & Hin & Hp); cbn [fst snd] in Hp.
    apply pixels_In in Hin as [Hy' Hx'].
    apply andb_true_iff in Hp as [Hp Hblack].
    apply andb_true_iff in Hp as [Hj Hc].
    apply Nat.eqb_eq in Hj; apply Z.eqb_eq in Hc.
    destruct (byte_index_in_range y' x' Hy' Hx') as (Hidx' & Hq' & Hr' & Hdm').
    assert (y' = y /\ x' = x) as [-> ->] by lia.
    congruence.
Qed.

Lemma pack_image_bit_is_pixel_witness :
  0 <= 0 < EPAPER_WIDTH /\ 0 <= 0 < EPAPER_HEIGHT /\
  packed_bit (pack_image [200; 0; 0; 255]) 0 0 = true /\
  0 <= 9 < EPAPER_WIDTH /\ 0 <= 3 < EPAPER_HEIGHT /\
  packed_bit (pack_image [200; 0; 0; 255]) 3 9 = false.
Proof.
  assert (H0 : 0 <= 0 < EPAPER_WIDTH) by (unfold EPAPER_WIDTH; lia).
  assert (H1 : 0 <= 0 < EPAPER_HEIGHT) by (unfold EPAPER_HEIGHT; lia).
  assert (H2 : 0 <= 9 < EPAPER_WIDTH) by (unfold EPAPER_WIDTH; lia).
  assert (H3 : 0 <= 3 < EPAPER_HEIGHT) by (unfold EPAPER_HEIGHT; lia).
  split; [exact H0|]; split; [exact H1|].
  split; [rewrite (pack_image_bit_is_pixel [200; 0; 0; 255] 0 0 H0 H1); reflexivity|].
  split; [exact H2|]; split; [exact H3|].
  rewrite (pack_image_bit_is_pixel [200; 0; 0; 255] 9 3 H2 H3); reflexivity.
Defined.


(** X15. Whatever the canvas holds, the packed image is a full frame for
    the driver: 4000 elements, the size [clear] computes for the 122 x 250
    panel, every one a byte value, so [display] cannot raise [ValueError]
    on it; and in the last byte of every row the six bits past pixel 121
    are 0. *)
Theorem pack_image_is_a_full_frame (finalData : list Z) :
  List.length (pack_image finalData) = 4000%nat
  /\ List.length (pack_image finalData)
     = Z.to_nat (height new_display * linewidth (width new_display))
  /\ Forall (fun b => 0 <= b <= 255) (pack_image finalData)
  /\ (forall y c, 0 <= y < EPAPER_HEIGHT -> 0 <= c < 6 ->
        Z.testbit (nth (Z.to_nat (y * 16 + 15)) (pack_image finalData) 0) c = false)
  /\ (forall W fuel d d', display W fuel (pack_image finalData) d <> Raise ValueError d').
Proof.
  assert (Hlen : List.length (pack_image finalData) = 4000%nat).
  { rewrite pack_image_pixels, pack_pixels_length; apply blank_buffer_length. }
  assert (Hsmall : Forall (fun b => 0 <= b <= 255) (pack_image finalData)).
  { rewrite pack_image_pixels.
    eapply Forall_impl; [|apply pack_pixels_small].
    - intros b Hb; simpl in Hb; lia.
    - apply Forall_repeat; lia. }
  split; [exact Hlen|]; split; [rewrite Hlen; symmetry; exact clear_buffer_size|].
  split; [exact Hsmall|]; split.
  - intros y c Hy Hc; rewrite pack_image_bit by lia.
    apply not_true_is_false; intros Hex.
    apply existsb_exists in Hex as ([y' x'] & Hin & Hp); cbn [fst snd] in Hp.
    apply pixels_In in Hin as [Hy' Hx'].
    apply andb_true_iff in Hp as [Hp _].
    apply andb_true_iff in Hp as [Hj Hbit].
    apply Nat.eqb_eq in Hj; apply Z.eqb_eq in Hbit.
    destruct (byte_index_in_range y' x' Hy' Hx') as (Hidx' & Hq' & Hr' & Hdm').
    unfold EPAPER_HEIGHT, EPAPER_WIDTH in *; lia.
  - intros W fuel; apply byte_safe_display, forallb_forall; intros b Hb.
    apply is_byte_iff; rewrite Forall_forall in Hsmall; auto.
Qed.

(** ** Cursor and window *)

(** X16. For coordinates inside the panel, [set_cursor] sends x itself as
    the X address, then y and 0, while [set_window] sends x / 8 for the
    same x: the cursor method does not divide by 8. The two X bytes agree
    only at x = 0, where [display] puts the cursor. *)
Theorem set_cursor_sends_x_unshifted
  (W : world) (d : EPaperDisplay) (x y : Z) :
  transport_ok W -> 0 <= x < DISPLAY_WIDTH -> 0 <= y < DISPLAY_HEIGHT ->
  exists dcur dwin,
    set_cursor W x y d = Ok dcur /\
    bus_frames (trace dcur)
    = bus_frames (trace d) ++ [Cmd [0x4E]; Dat [x]; Cmd [0x4F]; Dat [y]; Dat [0]] /\
    set_window W x y x y d = Ok dwin /\
    bus_frames (trace dwin)
    = bus_frames (trace d)
      ++ [Cmd [0x44]; Dat [x / 8]; Dat [x / 8];
          Cmd [0x45]; Dat [y]; Dat [0]; Dat [y]; Dat [0]] /\
    (x = x / 8 <-> x = 0).
Proof.
  unfold DISPLAY_WIDTH, DISPLAY_HEIGHT; intros HW Hx Hy.
  assert (Ex : Z.land x 0xFF = x)
    by (rewrite land_255_mod; apply Z.mod_small; lia).
  assert (Ex8 : Z.land (Z.shiftr x 3) 0xFF = x / 8)
    by (apply x_byte_in_range; lia).
  assert (Ey : Z.land y 0xFF = y)
    by (rewrite land_255_mod; apply Z.mod_small; lia).
  assert (Ey8 : Z.land (Z.shiftr y 8) 0xFF = 0).
  { rewrite land_255_mod, shiftr_8_div, Z.div_small by lia; reflexivity. }
  exists (set_cursor_done x y d), (set_window_done x y x y d).
  split; [apply set_cursor_ok; exact HW|].
  split; [rewrite frames_set_cursor_done, Ex, Ey, Ey8; reflexivity|].
  split; [apply set_window_ok; exact HW|].
  split; [rewrite frames_set_window_done, Ex8, Ey, Ey8; reflexivity|].
  pose proof (Z.div_mod x 8 ltac:(lia)) as Hdm.
  pose proof (Z.mod_pos_bound x 8 ltac:(lia)) as Hm.
  split; intros H; [lia|].
  subst x; reflexivity.
Qed.

Lemma set_cursor_sends_x_unshifted_witness :
  transport_ok calm /\ 0 <= 64 < DISPLAY_WIDTH /\ 0 <= 100 < DISPLAY_HEIGHT /\
  exists dcur dwin,
    set_cursor calm 64 100 new_display = Ok dcur /\
    bus_frames (trace dcur) = [Cmd [0x4E]; Dat [64]; Cmd [0x4F]; Dat [100]; Dat [0]] /\
    set_window calm 64 100 64 100 new_display = Ok dwin /\
    bus_frames (trace dwin)
    = [Cmd [0x44]; Dat [8]; Dat [8]; Cmd [0x45]; Dat [100]; Dat [0]; Dat [100]; Dat [0]].
Proof.
  assert (Hx : 0 <= 64 < DISPLAY_WIDTH) by (unfold DISPLAY_WIDTH; lia).
  assert (Hy : 0 <= 100 < DISPLAY_HEIGHT) by (unfold DISPLAY_HEIGHT; lia).
  split; [exact calm_transport_ok|]; split; [exact Hx|]; split; [exact Hy|].
  destruct (set_cursor_sends_x_unshifted calm new_display 64 100
              calm_transport_ok Hx Hy)
    as (dcur & dwin & Hc & Hfc & Hw & Hfw & _).
  exists dcur, dwin; repeat split; assumption.
Defined.
